(** * ragService front end: chat client, message bubble and microsite loader

    A shallow embedding of three React components of the repository:

    - [ChatInterface]  (components/Chat/ChatInterface.tsx): the WebSocket
      client, its state and its event handlers;
    - [MessageBubble]  (components/Chat/MessageBubble.tsx): the block that
      renders the sources of a message;
    - [Microsite]      (microsite/src/App.tsx): the effect that loads the
      dashboard data from the page URL.

    JavaScript values are modelled as they exist at run time: what
    [JSON.parse] returns is an untyped tree, numbers are IEEE 754 binary64
    values, strings are byte strings holding UTF-8 text.  Component state is
    threaded explicitly through a small monad whose computations may also
    throw and may hand frames to the socket. *)

From Stdlib Require Import ZArith List String Ascii Bool Lia.
From Stdlib Require Import Decimal DecimalString DecimalZ.
From Stdlib Require Import SpecFloat.
Import ListNotations.

Set Warnings "-register-all".

Local Open Scope string_scope.
Local Open Scope Z_scope.

(* ================================================================== *)
(** * JavaScript values and the built-ins the components call          *)
(* ================================================================== *)

Module JS.

(** Numbers are binary64: 53 bits of precision, exponents up to 1024. *)
Definition number : Type := spec_float.
Definition prec : Z := 53.
Definition emax : Z := 1024.

Definition Number_of_Z (z : Z) : number := binary_normalize prec emax z 0 false.
Definition Number_mul : number -> number -> number := SFmul prec emax.
Definition Number_div : number -> number -> number := SFdiv prec emax.

(** The value tree: [undefined], [null], booleans, numbers, strings,
    arrays and plain objects.  An object is the list of its own
    properties; the first binding of a key is the one that is read. *)
Inductive value : Type :=
| VUndefined
| VNull
| VBool (b : bool)
| VNum (n : number)
| VStr (s : string)
| VArr (elements : list value)
| VObj (fields : list (string * value)).

Inductive Exn : Type := TypeError | SyntaxError | URIError.

Fixpoint lookup (k : string) (fields : list (string * value)) : option value :=
  match fields with
  | [] => None
  | (k', v) :: rest => if String.eqb k k' then Some v else lookup k rest
  end.

(** [v.k] for the property names the components read ([type], [response],
    [sources], [microsite], [artifact], [filename], [error]): none of them
    is defined on a built-in prototype, so only own properties of objects
    answer; reading a property of [undefined] or [null] throws. *)
Definition get (v : value) (k : string) : Exn + value :=
  match v with
  | VUndefined | VNull => inl TypeError
  | VObj fields =>
      match lookup k fields with
      | Some x => inr x
      | None => inr VUndefined
      end
  | _ => inr VUndefined
  end.

(** The property [k] of an object that is known to be one: its value, or
    [undefined] when the object has no such property. *)
Definition field (v : value) (k : string) : value :=
  match get v k with
  | inr x => x
  | inl _ => VUndefined
  end.

(** [v === s] for a string literal [s]. *)
Definition strict_eq_string (v : value) (s : string) : bool :=
  match v with
  | VStr s' => String.eqb s' s
  | _ => false
  end.

(** [ToBoolean] on numbers and on strings. *)
Definition Number_truthy (n : number) : bool :=
  match n with
  | S754_zero _ | S754_nan => false
  | _ => true
  end.

Definition String_truthy (s : string) : bool :=
  match s with
  | EmptyString => false
  | _ => true
  end.

(** The double quote character, as a one-character string. *)
Definition quote : string := String (ascii_of_nat 34) EmptyString.

(** [a || b] on strings. *)
Definition String_or (a b : string) : string :=
  if String_truthy a then a else b.

(** Decimal rendering of an integer, as [ToString] gives it for an
    integral number below 10^21 (the millisecond clock is one). *)
Definition string_of_Z (z : Z) : string := NilZero.string_of_int (Z.to_int z).

(** ** [String.prototype.trim]

    White space and line terminators of ECMAScript, in their UTF-8
    encodings: U+0009..U+000D, U+0020, U+00A0, U+1680, U+2000..U+200A,
    U+2028, U+2029, U+202F, U+205F, U+3000, U+FEFF. *)
Definition is_space1 (c : ascii) : bool :=
  let n := N_of_ascii c in
  ((9 <=? n) && (n <=? 13) || (n =? 32))%N.

Definition is_space2 (c1 c2 : ascii) : bool :=
  ((N_of_ascii c1 =? 194) && (N_of_ascii c2 =? 160))%N.

Definition is_space3 (c1 c2 c3 : ascii) : bool :=
  let a := N_of_ascii c1 in
  let b := N_of_ascii c2 in
  let c := N_of_ascii c3 in
  ((a =? 225) && (b =? 154) && (c =? 128)
   || (a =? 226) && (b =? 128)
        && ((128 <=? c) && (c <=? 138) || (c =? 168) || (c =? 169) || (c =? 175))
   || (a =? 226) && (b =? 129) && (c =? 159)
   || (a =? 227) && (b =? 128) && (c =? 128)
   || (a =? 239) && (b =? 187) && (c =? 191))%N.

Fixpoint trimStart (s : string) : string :=
  match s with
  | EmptyString => EmptyString
  | String c1 r1 =>
      if is_space1 c1 then trimStart r1
      else
        match r1 with
        | String c2 r2 =>
            if is_space2 c1 c2 then trimStart r2
            else
              match r2 with
              | String c3 r3 =>
                  if is_space3 c1 c2 c3 then trimStart r3 else s
              | EmptyString => s
              end
        | EmptyString => s
        end
  end.

Definition blank (s : string) : bool := String.eqb (trimStart s) EmptyString.

(** Trailing white space: a suffix is dropped as soon as it is all white
    space.  A suffix that starts inside a multi-byte character begins with
    a continuation byte and is never blank, so the cut falls on a character
    boundary. *)
Fixpoint trimEnd (s : string) : string :=
  match s with
  | EmptyString => EmptyString
  | String c r => if blank s then EmptyString else String c (trimEnd r)
  end.

Definition trim (s : string) : string := trimEnd (trimStart s).

End JS.

(* ================================================================== *)
(** * Host functions                                                   *)
(* ================================================================== *)

(** The parts of the JavaScript run time that the components call and
    whose algorithms are not part of this repository.  [None] stands for
    a thrown exception ([SyntaxError] for [JSON.parse], [URIError] for
    [decodeURIComponent]). *)
Class Host : Type := {
  JSON_parse : string -> option JS.value;
  JSON_stringify : JS.value -> string;
  decodeURIComponent : string -> option string;
  (** [Number::toString] of a finite non-zero number: sign, mantissa,
      exponent. *)
  Number_toString_finite : bool -> positive -> Z -> string
}.

Module Builtins.
Import JS.

Section WithHost.
Context {host : Host}.

Definition Number_toString (x : number) : string :=
  match x with
  | S754_zero _ => "0"
  | S754_nan => "NaN"
  | S754_infinity false => "Infinity"
  | S754_infinity true => "-Infinity"
  | S754_finite s m e => Number_toString_finite s m e
  end.

Definition has_own (k : string) (fields : list (string * value)) : bool :=
  match lookup k fields with
  | Some _ => true
  | None => false
  end.

(** [Array.prototype.join(",")] over already converted elements; [None]
    when the conversion of an element threw. *)
Fixpoint join (parts : list (option string)) : option string :=
  match parts with
  | [] => Some EmptyString
  | [p] => p
  | p :: rest =>
      match p, join rest with
      | Some a, Some b => Some (a ++ "," ++ b)
      | _, _ => None
      end
  end.

(** [ToString], as a template literal applies it.  An array joins its
    elements, [undefined] and [null] elements giving the empty string.  A
    plain object answers through [Object.prototype.toString], unless an
    own data property named [toString] hides it: then no callable
    conversion is left and [TypeError] is thrown. *)
Fixpoint ToString (v : value) : option string :=
  match v with
  | VUndefined => Some "undefined"
  | VNull => Some "null"
  | VBool true => Some "true"
  | VBool false => Some "false"
  | VNum n => Some (Number_toString n)
  | VStr s => Some s
  | VArr elements =>
      join (map (fun x =>
                   match x with
                   | VUndefined | VNull => Some EmptyString
                   | _ => ToString x
                   end) elements)
  | VObj fields =>
      if has_own "toString" fields then None else Some "[object Object]"
  end.

(** ** [Number.prototype.toFixed(0)] *)

(** Is [m * 2^e] at least 10^21? *)
Definition ge_1e21 (m : positive) (e : Z) : bool :=
  if 0 <=? e then 10 ^ 21 <=? Zpos m * 2 ^ e
  else 10 ^ 21 * 2 ^ (- e) <=? Zpos m.

(** The integer [n] for which [n - m * 2^e] is closest to zero, the
    larger one when two are as close. *)
Definition nearest_integer (m : positive) (e : Z) : Z :=
  if 0 <=? e then Zpos m * 2 ^ e
  else (Zpos m + 2 ^ (- e - 1)) / 2 ^ (- e).

Definition toFixed0 (x : number) : string :=
  match x with
  | S754_finite s m e =>
      (if s then "-" else EmptyString) ++
      (if ge_1e21 m e then Number_toString_finite false m e
       else string_of_Z (nearest_integer m e))
  | S754_zero _ => "0"
  | _ => Number_toString x
  end.

End WithHost.
End Builtins.

(* ================================================================== *)
(** * ChatInterface                                                    *)
(* ================================================================== *)

Module ChatInterface.
Import JS Builtins.

(** ** Data (types/index.ts) *)

Inductive MessageType : Type :=
| T_user
| T_assistant
| T_artifact_generated
| T_error.

(** A chat message.  The fields filled from a parsed envelope hold the
    run-time value as it came, since [JSON.parse] returns [any] and the
    assignment is unchecked; an optional field that the object literal
    does not mention reads as [undefined]. *)
Record Message : Type := {
  id : string;
  type : MessageType;
  content : value;
  timestamp : string;
  sources : value;
  microsite : value;
  artifact : value
}.

(** The user object, with the two fields the component reads;
    [tenant_id] is missing on the demo user that the application shell
    builds. *)
Record User : Type := {
  name : string;
  tenant_id : option string
}.

(** The object made by [new WebSocket(url)]. *)
Record WebSocket : Type := { url : string }.

(** The four state cells of the component. *)
Record State : Type := {
  messages : list Message;
  inputMessage : string;
  isLoading : bool;
  websocket : option WebSocket
}.

Definition initial : State :=
  {| messages := []; inputMessage := EmptyString; isLoading := false; websocket := None |}.

(** What a handler reads from its surroundings: the component props and
    the two readings of the clock, [Date.now()] in milliseconds and
    [new Date().toISOString()]. *)
Record Props : Type := {
  selectedProject : string;
  user : option User
}.

Record Clock : Type := {
  Date_now : Z;
  toISOString : string
}.

(** ** Handlers as computations

    A handler runs on the committed state, may throw, and may hand frames
    to a socket.  State updates made before a throw stay. *)
Definition Frame : Type := (WebSocket * string)%type.

Definition M (A : Type) : Type := State -> (Exn + A) * State * list Frame.

Definition ret {A} (a : A) : M A := fun st => (inr a, st, []).

Definition bind {A B} (c : M A) (k : A -> M B) : M B :=
  fun st =>
    match c st with
    | (inl e, st1, out1) => (inl e, st1, out1)
    | (inr a, st1, out1) =>
        let '(r, st2, out2) := k a st1 in (r, st2, (out1 ++ out2)%list)
    end.

Definition throw {A} (e : Exn) : M A := fun st => (inl e, st, []).

Definition lift {A} (r : Exn + A) : M A := fun st => (r, st, []).

Definition read : M State := fun st => (inr st, st, []).

Definition setMessages (f : list Message -> list Message) : M unit :=
  fun st =>
    (inr tt,
     {| messages := f (messages st); inputMessage := inputMessage st;
        isLoading := isLoading st; websocket := websocket st |}, []).

Definition setInputMessage (s : string) : M unit :=
  fun st =>
    (inr tt,
     {| messages := messages st; inputMessage := s;
        isLoading := isLoading st; websocket := websocket st |}, []).

Definition setIsLoading (b : bool) : M unit :=
  fun st =>
    (inr tt,
     {| messages := messages st; inputMessage := inputMessage st;
        isLoading := b; websocket := websocket st |}, []).

Definition setWebsocket (w : option WebSocket) : M unit :=
  fun st =>
    (inr tt,
     {| messages := messages st; inputMessage := inputMessage st;
        isLoading := isLoading st; websocket := w |}, []).

Definition send (ws : WebSocket) (data : string) : M unit :=
  fun st => (inr tt, st, [(ws, data)]).

Declare Scope handler_scope.
Delimit Scope handler_scope with handler.
Notation "x <- c ;; k" := (bind c (fun x => k))
  (at level 61, c at next level, right associativity) : handler_scope.
Notation "c ;; k" := (bind c (fun _ => k))
  (at level 61, right associativity) : handler_scope.
Local Open Scope handler_scope.

Definition state_of {A} (r : (Exn + A) * State * list Frame) : State := snd (fst r).
Definition frames_of {A} (r : (Exn + A) * State * list Frame) : list Frame := snd r.
Definition thrown {A} (r : (Exn + A) * State * list Frame) : option Exn :=
  match fst (fst r) with
  | inl e => Some e
  | inr _ => None
  end.

Section WithHost.
Context {host : Host}.

(** ** The connection effect *)

Definition sessionId (now : Z) : string := "session_" ++ string_of_Z now.

(** [VITE_WS_URL] is the build-time setting, absent when not configured. *)
Definition wsUrl (VITE_WS_URL : option string) : string :=
  match VITE_WS_URL with
  | Some u => String_or u "ws://localhost:8000"
  | None => "ws://localhost:8000"
  end.

Definition connect (VITE_WS_URL : option string) (now : Z) : WebSocket :=
  {| url := wsUrl VITE_WS_URL ++ "/ws/" ++ sessionId now |}.

Definition user_name (u : option User) : string :=
  match u with
  | Some u' => String_or (name u') "User"
  | None => "User"
  end.

Definition onopen (ws : WebSocket) (u : option User) (clock : Clock) : M unit :=
  setWebsocket (Some ws) ;;
  let initialMessage :=
    {| id := "sys_msg_" ++ string_of_Z (Date_now clock);
       type := T_assistant;
       content := VStr ("Hello " ++ user_name u ++
         "! I'm your PMO Assistant. Ask me about your projects or request an artifact (e.g., " ++
         quote ++ "Generate an Excel risk log" ++ quote ++ ").");
       timestamp := toISOString clock;
       sources := VUndefined;
       microsite := VUndefined;
       artifact := VUndefined |} in
  setMessages (fun prev => (prev ++ [initialMessage])%list).

(** ** [ws.onmessage] *)

(** The body of the handler once [event.data] is parsed. *)
Definition dispatch (data : value) (clock : Clock) : M unit :=
  t <- lift (get data "type") ;;
  if strict_eq_string t "response" then
    response <- lift (get data "response") ;;
    srcs <- lift (get data "sources") ;;
    site <- lift (get data "microsite") ;;
    let assistantMessage :=
      {| id := "msg_" ++ string_of_Z (Date_now clock) ++ "_resp";
         type := T_assistant;
         content := response;
         timestamp := toISOString clock;
         sources := srcs;
         microsite := site;
         artifact := VUndefined |} in
    setMessages (fun prev => (prev ++ [assistantMessage])%list) ;;
    setIsLoading false
  else if strict_eq_string t "artifact_generated" then
    art <- lift (get data "artifact") ;;
    filename <- lift (get art "filename") ;;
    shown <- lift (match ToString filename with
                   | Some s => inr s
                   | None => inl TypeError
                   end) ;;
    let artifactMessage :=
      {| id := "msg_" ++ string_of_Z (Date_now clock) ++ "_art";
         type := T_artifact_generated;
         content := VStr ("Your requested artifact, " ++ quote ++ shown ++ quote ++
                          ", is ready! Click the link below to download.");
         timestamp := toISOString clock;
         sources := VUndefined;
         microsite := VUndefined;
         artifact := art |} in
    setMessages (fun prev => (prev ++ [artifactMessage])%list)
  else if strict_eq_string t "error" then
    err <- lift (get data "error") ;;
    let errorMessage :=
      {| id := "msg_" ++ string_of_Z (Date_now clock) ++ "_err";
         type := T_assistant;
         content := err;
         timestamp := toISOString clock;
         sources := VUndefined;
         microsite := VUndefined;
         artifact := VUndefined |} in
    setMessages (fun prev => (prev ++ [errorMessage])%list) ;;
    setIsLoading false
  else ret tt.

Definition onmessage (event_data : string) (clock : Clock) : M unit :=
  match JSON_parse event_data with
  | None => throw SyntaxError
  | Some data => dispatch data clock
  end.

Definition onclose : M unit := ret tt.

Definition onerror : M unit := setIsLoading false.

(** ** [sendMessage] and the input box *)

Definition onChange (v : string) : M unit := setInputMessage v.

Definition tenant (u : option User) : string :=
  match u with
  | Some u' =>
      match tenant_id u' with
      | Some t => String_or t "demo"
      | None => "demo"
      end
  | None => "demo"
  end.

Definition projectIds (selected : string) : list value :=
  if String_truthy selected then [VStr selected] else [].

Definition chat_payload (message : string) (props : Props) : value :=
  VObj [ ("message", VStr message);
         ("project_context",
           VObj [ ("tenant_id", VStr (tenant (user props)));
                  ("project_ids", VArr (projectIds (selectedProject props)));
                  ("selected_project", VStr (selectedProject props)) ]);
         ("type", VStr "chat") ].

(** [!!websocket]: the state cell holds a socket. *)
Definition connected (w : option WebSocket) : bool :=
  match w with
  | Some _ => true
  | None => false
  end.

Definition sendMessage (props : Props) (clock : Clock) : M unit :=
  st <- read ;;
  if negb (String_truthy (trim (inputMessage st)))
     || negb (connected (websocket st))
     || isLoading st
  then ret tt
  else
    match websocket st with
    | None => ret tt
    | Some ws =>
        let userMessage :=
          {| id := "msg_" ++ string_of_Z (Date_now clock) ++ "_user";
             type := T_user;
             content := VStr (inputMessage st);
             timestamp := toISOString clock;
             sources := VUndefined;
             microsite := VUndefined;
             artifact := VUndefined |} in
        setMessages (fun prev => (prev ++ [userMessage])%list) ;;
        setIsLoading true ;;
        send ws (JSON_stringify (chat_payload (inputMessage st) props)) ;;
        setInputMessage EmptyString
    end.

End WithHost.
End ChatInterface.

(* ================================================================== *)
(** * MessageBubble: the sources block                                 *)
(* ================================================================== *)

Module MessageBubble.
Import JS Builtins.

(** [Source] of types/index.ts; [score] is optional. *)
Record Source : Type := {
  file : string;
  project : string;
  type : string;
  score : option number
}.

(** What React puts in the document: text nodes, elements with their
    class, and the icon components of the icon library. *)
Inductive node : Type :=
| Text (s : string)
| Element (tag className : string) (children : list node)
| Icon (name className : string).

Fixpoint textContent (n : node) : string :=
  match n with
  | Text s => s
  | Element _ _ children =>
      fold_right (fun c acc => textContent c ++ acc) EmptyString children
  | Icon _ _ => EmptyString
  end.

Definition bullet : node := Element "span" "text-gray-400" [Text "•"].

Section WithHost.
Context {host : Host}.

Definition hundred : number := Number_of_Z 100.

(** [{source.score && (<>...</>)}].  When the left operand of [&&] is
    falsy the expression is that operand itself; as a child, React renders
    a number as its text ([0] for zero, [NaN] for NaN) and [undefined] as
    nothing. *)
Definition score_children (s : option number) : list node :=
  match s with
  | None => []
  | Some x =>
      if Number_truthy x then
        [ bullet;
          Element "span" EmptyString
            [ Text "Score: "; Text (toFixed0 (Number_mul x hundred)); Text "%" ] ]
      else [ Text (Number_toString x) ]
  end.

Definition render_source (source : Source) : node :=
  Element "div" "flex items-center space-x-2 text-xs text-gray-600"
    ([ Icon "ExternalLink" "h-3 w-3";
       Element "span" "font-medium" [Text (file source)];
       bullet;
       Element "span" EmptyString [Text (project source)] ]
     ++ score_children (score source))%list.

(** [{message.sources && message.sources.length > 0 && (...)}]: an absent
    list renders nothing, and so does the [false] of an empty one. *)
Definition render_sources (srcs : option (list Source)) : list node :=
  match srcs with
  | None => []
  | Some l =>
      if (0 <? List.length l)%nat then
        [ Element "div" "mt-3 pt-3 border-t border-gray-200"
            [ Element "div" "text-xs font-medium text-gray-700 mb-2" [Text "Sources:"];
              Element "div" "space-y-1"
                (map render_source l ++ [Text "\n              "])%list ] ]
      else []
  end.

End WithHost.
End MessageBubble.

(* ================================================================== *)
(** * Microsite: loading the dashboard data                            *)
(* ================================================================== *)

Module Microsite.
Import JS.

(** ** The dashboard data (the [data] prop of the Dashboard component) *)

Inductive LucideIcon : Type := BarChart3 | TrendingUp | DollarSign | Activity.

Record Client : Type := {
  client_name : string;
  sector : string;
  summary : string
}.

Record Project : Type := {
  project_id : string;
  project_title : string;
  project_description : string;
  status : string;
  completion : option number
}.

Record Kpi : Type := {
  kpi_name : string;
  value_ : string;
  change : string;
  trend : string;
  icon : LucideIcon
}.

Record ValueOutcome : Type := {
  outcome_type : string;
  outcome_description : string;
  amount : string;
  timeframe : string
}.

Record DashboardData : Type := {
  title : string;
  client : Client;
  projects : list Project;
  kpis : list Kpi;
  valueOutcomes : list ValueOutcome
}.

Definition sampleData : DashboardData :=
  {| title := "Analytics Dashboard - Demo Client";
     client :=
       {| client_name := "Demo Oil & Gas Company";
          sector := "Oil & Gas";
          summary := "Comprehensive analytics across 3 active projects" |};
     projects :=
       [ {| project_id := "mars_project";
            project_title := "MARS Analytics Platform";
            project_description :=
              "AI-driven production optimization and predictive maintenance system";
            status := "Active";
            completion := Some (Number_of_Z 85) |};
         {| project_id := "shell_optimization";
            project_title := "Production Optimization Initiative";
            project_description :=
              "Advanced analytics for production efficiency improvements";
            status := "Active";
            completion := Some (Number_of_Z 72) |} ];
     kpis :=
       [ {| kpi_name := "Production Efficiency"; value_ := "94.2%";
            change := "+2.8%"; trend := "up"; icon := TrendingUp |};
         {| kpi_name := "Cost Reduction"; value_ := "$2.3M";
            change := "+15%"; trend := "up"; icon := DollarSign |};
         {| kpi_name := "Downtime Reduction"; value_ := "18%";
            change := "-5.2%"; trend := "down"; icon := Activity |};
         {| kpi_name := "Data Quality Score"; value_ := "96.7%";
            change := "+1.1%"; trend := "up"; icon := BarChart3 |} ];
     valueOutcomes :=
       [ {| outcome_type := "Cost Savings";
            outcome_description :=
              "Reduced operational costs through predictive maintenance and optimization";
            amount := "$2.3M"; timeframe := "Annual" |};
         {| outcome_type := "Efficiency Gain";
            outcome_description :=
              "Improved production efficiency across all monitored facilities";
            amount := "2.8%"; timeframe := "YTD" |};
         {| outcome_type := "Risk Reduction";
            outcome_description :=
              "Decreased unplanned downtime through predictive analytics";
            amount := "18%"; timeframe := "Quarterly" |} ] |}.

(** What the [dashboardData] cell can hold: the typed sample object, or
    whatever [JSON.parse] returned, which is [any] and is stored
    unchecked. *)
Inductive Data : Type :=
| Typed (d : DashboardData)
| Parsed (v : value).

Record State : Type := {
  dashboardData : Data;
  isLoading : bool
}.

Definition initial : State :=
  {| dashboardData := Typed sampleData; isLoading := false |}.

Definition setDashboardData (d : Data) (st : State) : State :=
  {| dashboardData := d; isLoading := isLoading st |}.

(** What [App] returns. *)
Inductive View : Type :=
| Spinner
| Dashboard (data : Data).

Definition render (st : State) : View :=
  if isLoading st then Spinner else Dashboard (dashboardData st).

Section WithHost.
Context {host : Host}.

(** [try { ... } catch (error) { console.error(...) }]: the handler logs
    and falls through. *)
Definition try_catch {A} (body : Exn + A) (handler : Exn -> A) : A :=
  match body with
  | inr a => a
  | inl e => handler e
  end.

Definition parse_param (dataParam : string) : Exn + value :=
  match decodeURIComponent dataParam with
  | None => inl URIError
  | Some text =>
      match JSON_parse text with
      | None => inl SyntaxError
      | Some parsedData => inr parsedData
      end
  end.

(** The mount effect; [dataParam] is [urlParams.get('data')], [None]
    for [null].  The result is the state after the effect, or the
    exception that escaped it. *)
Definition useEffect (dataParam : option string) (st : State) : Exn + State :=
  match dataParam with
  | Some p =>
      if String_truthy p then
        inr (try_catch
               (match parse_param p with
                | inr parsedData => inr (setDashboardData (Parsed parsedData) st)
                | inl e => inl e
                end)
               (fun _ => st))
      else inr st
  | None => inr st
  end.

End WithHost.
End Microsite.

(* ================================================================== *)
(** * Runs of the chat component                                       *)
(* ================================================================== *)

Module Session.
Import JS Builtins ChatInterface.
Local Open Scope handler_scope.

(** The events the component reacts to, each with what its handler
    reads. *)
Inductive Event : Type :=
| Opened (ws : WebSocket) (u : option User) (clock : Clock)
| Changed (v : string)
| Submitted (props : Props) (clock : Clock)
| Received (event_data : string) (clock : Clock)
| Errored
| Closed.

(** What goes over the socket, in order of occurrence: frames handed to
    [send], parsed inbound envelopes, and socket error events. *)
Inductive Wire : Type :=
| Outbound (f : Frame)
| Inbound (data : value)
| Fault.

(** [data.type === t] without the throw. *)
Definition has_type (data : value) (t : string) : bool :=
  match get data "type" with
  | inr v => strict_eq_string v t
  | inl _ => false
  end.

(** An envelope that answers a chat message. *)
Definition is_answer (data : value) : bool :=
  has_type data "response" || has_type data "error".

(** The largest number of chat frames that were in flight at one time
    along a transcript, [n] being in flight at its start.  An answer
    settles what is in flight; [clear_on_fault] says whether a socket
    error does too. *)
Fixpoint peak (clear_on_fault : bool) (n : nat) (t : list Wire) : nat :=
  match t with
  | [] => n
  | Outbound _ :: rest => peak clear_on_fault (S n) rest
  | Inbound data :: rest =>
      Nat.max n (peak clear_on_fault (if is_answer data then 0%nat else n) rest)
  | Fault :: rest =>
      Nat.max n (peak clear_on_fault (if clear_on_fault then 0%nat else n) rest)
  end.

(** The message a [response] envelope becomes. *)
Definition assistantMessage (data : value) (clock : Clock) : Message :=
  {| id := "msg_" ++ string_of_Z (Date_now clock) ++ "_resp";
     type := T_assistant;
     content := field data "response";
     timestamp := toISOString clock;
     sources := field data "sources";
     microsite := field data "microsite";
     artifact := VUndefined |}.

(** The message an [error] envelope becomes. *)
Definition errorMessage (data : value) (clock : Clock) : Message :=
  {| id := "msg_" ++ string_of_Z (Date_now clock) ++ "_err";
     type := T_assistant;
     content := field data "error";
     timestamp := toISOString clock;
     sources := VUndefined;
     microsite := VUndefined;
     artifact := VUndefined |}.

(** The message an [artifact_generated] envelope becomes, [shown] being
    the text of the file name. *)
Definition artifactMessage (art : value) (shown : string) (clock : Clock) : Message :=
  {| id := "msg_" ++ string_of_Z (Date_now clock) ++ "_art";
     type := T_artifact_generated;
     content := VStr ("Your requested artifact, " ++ quote ++ shown ++ quote ++
                      ", is ready! Click the link below to download.");
     timestamp := toISOString clock;
     sources := VUndefined;
     microsite := VUndefined;
     artifact := art |}.

Definition with_messages (st : State) (ms : list Message) (loading : bool) : State :=
  {| messages := ms; inputMessage := inputMessage st;
     isLoading := loading; websocket := websocket st |}.

Section WithHost.
Context {host : Host}.

Definition handle (ev : Event) : M unit :=
  match ev with
  | Opened ws u clock => onopen ws u clock
  | Changed v => onChange v
  | Submitted props clock => sendMessage props clock
  | Received event_data clock => onmessage event_data clock
  | Errored => onerror
  | Closed => onclose
  end.

Definition observe (ev : Event) : list Wire :=
  match ev with
  | Received event_data _ =>
      match JSON_parse event_data with
      | Some data => [Inbound data]
      | None => []
      end
  | Errored => [Fault]
  | _ => []
  end.

(** Running the handlers one event after the other; an exception ends
    the handler that threw, not the component. *)
Fixpoint run (st : State) (evs : list Event) : State * list Wire :=
  match evs with
  | [] => (st, [])
  | ev :: rest =>
      let r := handle ev st in
      let '(st', t) := run (state_of r) rest in
      (st', (observe ev ++ map Outbound (frames_of r) ++ t)%list)
  end.

(** The session identifiers of the connections opened by successive runs
    of the connection effect, given the clock reading of each run. *)
Definition sessionIds (readings : list Z) : list string := map sessionId readings.

(** The frame [sendMessage] builds from the input text [message], the
    tenant and the selected project, spelled out. *)
Definition chat_frame (message tenant_id selected : string) : string :=
  JSON_stringify
    (VObj [ ("message", VStr message);
            ("project_context",
              VObj [ ("tenant_id", VStr tenant_id);
                     ("project_ids",
                       VArr (if String.eqb selected EmptyString then []
                             else [VStr selected]));
                     ("selected_project", VStr selected) ]);
            ("type", VStr "chat") ]).

Definition sent (t : list Wire) : list Frame :=
  flat_map (fun w => match w with Outbound f => [f] | _ => [] end) t.

End WithHost.
End Session.

(* ================================================================== *)
(** * A host to run examples on                                        *)
(* ================================================================== *)

Module Demo.
Import JS.

Definition q (s : string) : string := quote ++ s ++ quote.

(** The number that [JSON.parse] reads from the text [0.82]: the binary64
    value nearest to 82/100. *)
Definition score_082 : number := Number_div (Number_of_Z 82) (Number_of_Z 100).

Definition response_text : string :=
  "{" ++ q "type" ++ ":" ++ q "response" ++ "," ++
  q "response" ++ ":" ++ q "Efficiency is 94.2%" ++ "," ++
  q "sources" ++ ":[{" ++ q "file" ++ ":" ++ q "report.pdf" ++ "," ++
  q "project" ++ ":" ++ q "6" ++ "," ++ q "score" ++ ":0.82}]}".

Definition response_envelope : value :=
  VObj [ ("type", VStr "response");
         ("response", VStr "Efficiency is 94.2%");
         ("sources",
           VArr [ VObj [ ("file", VStr "report.pdf");
                         ("project", VStr "6");
                         ("score", VNum score_082) ] ]) ].

Definition artifact_text : string :=
  "{" ++ q "type" ++ ":" ++ q "artifact_generated" ++ "," ++
  q "artifact" ++ ":{" ++ q "id" ++ ":" ++ q "a1" ++ "," ++
  q "filename" ++ ":" ++ q "risk_log.xlsx" ++ "," ++
  q "mime_type" ++ ":" ++
  q "application/vnd.openxmlformats-officedocument.spreadsheetml.sheet" ++ "," ++
  q "download_url" ++ ":" ++ q "/api/v1/artifacts/a1" ++ "}}".

Definition artifact_fields : list (string * value) :=
  [ ("id", VStr "a1");
    ("filename", VStr "risk_log.xlsx");
    ("mime_type",
      VStr "application/vnd.openxmlformats-officedocument.spreadsheetml.sheet");
    ("download_url", VStr "/api/v1/artifacts/a1") ].

Definition artifact_envelope : value :=
  VObj [ ("type", VStr "artifact_generated"); ("artifact", VObj artifact_fields) ].

Definition error_text : string :=
  "{" ++ q "type" ++ ":" ++ q "error" ++ "," ++
  q "error" ++ ":" ++ q "Query failed" ++ "}".

Definition error_envelope : value :=
  VObj [ ("type", VStr "error"); ("error", VStr "Query failed") ].

Definition pong_text : string := "{" ++ q "type" ++ ":" ++ q "pong" ++ "}".

Definition pong_envelope : value := VObj [ ("type", VStr "pong") ].

(** The texts above, [null] and an empty object parse; anything else is
    refused. *)
Definition parse (s : string) : option value :=
  if String.eqb s response_text then Some response_envelope
  else if String.eqb s artifact_text then Some artifact_envelope
  else if String.eqb s error_text then Some error_envelope
  else if String.eqb s pong_text then Some pong_envelope
  else if String.eqb s "null" then Some VNull
  else if String.eqb s "{}" then Some (VObj [])
  else None.

Fixpoint commas (parts : list string) : string :=
  match parts with
  | [] => EmptyString
  | [p] => p
  | p :: rest => p ++ "," ++ commas rest
  end.

(** Serialisation of trees of strings, enough for the chat frame (the
    strings of the examples need no escape). *)
Fixpoint stringify (v : value) : string :=
  match v with
  | VStr s => q s
  | VBool true => "true"
  | VBool false => "false"
  | VArr elements => "[" ++ commas (map stringify elements) ++ "]"
  | VObj fields =>
      "{" ++ commas (map (fun kv => q (fst kv) ++ ":" ++ stringify (snd kv)) fields)
          ++ "}"
  | _ => "null"
  end.

(** Percent-decoding of the examples: texts without a percent sign are
    their own decoding, others are refused. *)
Fixpoint has_percent (s : string) : bool :=
  match s with
  | EmptyString => false
  | String c rest => Ascii.eqb c "%"%char || has_percent rest
  end.

Definition decode (s : string) : option string :=
  if has_percent s then None else Some s.

Definition demo_host : Host := {|
  JSON_parse := parse;
  JSON_stringify := stringify;
  decodeURIComponent := decode;
  Number_toString_finite := fun _ _ _ => "?"
|}.

Definition clock0 : ChatInterface.Clock :=
  {| ChatInterface.Date_now := 1700000000000;
     ChatInterface.toISOString := "2023-11-14T22:13:20.000Z" |}.

Definition socket0 : ChatInterface.WebSocket :=
  ChatInterface.connect None 1700000000000.

Definition props6 : ChatInterface.Props :=
  {| ChatInterface.selectedProject := "6";
     ChatInterface.user :=
       Some {| ChatInterface.name := "Demo User";
               ChatInterface.tenant_id := None |} |}.

(** The state of a session that is open and waits for an answer. *)
Definition waiting : ChatInterface.State :=
  {| ChatInterface.messages := [];
     ChatInterface.inputMessage := "next question";
     ChatInterface.isLoading := true;
     ChatInterface.websocket := Some socket0 |}.

(** An open session in which the user has typed a question. *)
Definition typed : ChatInterface.State :=
  {| ChatInterface.messages := [];
     ChatInterface.inputMessage := "What is the efficiency KPI?";
     ChatInterface.isLoading := false;
     ChatInterface.websocket := Some socket0 |}.

(** A send, a socket error, and a second send. *)
Definition send_error_send : list Session.Event :=
  [ Session.Opened socket0 None clock0;
    Session.Changed "a"; Session.Submitted props6 clock0;
    Session.Errored;
    Session.Changed "b"; Session.Submitted props6 clock0 ].

(** A send, its answer, and a second send. *)
Definition send_answer_send : list Session.Event :=
  [ Session.Opened socket0 None clock0;
    Session.Changed "a"; Session.Submitted props6 clock0;
    Session.Received response_text clock0;
    Session.Changed "b"; Session.Submitted props6 clock0 ].

End Demo.

(* ================================================================== *)
(** * ChatInterface: the send button, sockets and identifiers          *)
(* ================================================================== *)

Module ChatView.
Import JS Builtins ChatInterface Session.

(** [disabled] of the send button. *)
Definition send_disabled (st : State) : bool :=
  negb (String_truthy (trim (inputMessage st))) || isLoading st.

Definition is_user (m : Message) : bool :=
  match type m with
  | T_user => true
  | _ => false
  end.

(** The sockets handed to the component by [onopen] along a run. *)
Definition opened (evs : list Event) : list WebSocket :=
  flat_map (fun ev => match ev with Opened ws _ _ => [ws] | _ => [] end) evs.

(** The socket the state cell holds, if any. *)
Definition held (st : State) : list WebSocket :=
  match websocket st with
  | Some ws => [ws]
  | None => []
  end.

(** The [Date.now()] readings of the handlers that read the clock. *)
Definition readings (evs : list Event) : list Z :=
  flat_map (fun ev =>
              match ev with
              | Opened _ _ clock => [Date_now clock]
              | Submitted _ clock => [Date_now clock]
              | Received _ clock => [Date_now clock]
              | _ => []
              end) evs.

(** The five forms of message identifier the handlers build. *)
Inductive IdKind : Type := K_sys | K_user | K_resp | K_art | K_err.

Definition message_id (k : IdKind) (now : Z) : string :=
  match k with
  | K_sys => "sys_msg_" ++ string_of_Z now
  | K_user => "msg_" ++ string_of_Z now ++ "_user"
  | K_resp => "msg_" ++ string_of_Z now ++ "_resp"
  | K_art => "msg_" ++ string_of_Z now ++ "_art"
  | K_err => "msg_" ++ string_of_Z now ++ "_err"
  end.

(** Characters of a decimal rendering. *)
Definition is_decimal_char (c : ascii) : bool :=
  let n := N_of_ascii c in
  ((48 <=? n) && (n <=? 57) || (n =? 45))%N.

Fixpoint all_chars (p : ascii -> bool) (s : string) : bool :=
  match s with
  | EmptyString => true
  | String c rest => p c && all_chars p rest
  end.

End ChatView.

(* ================================================================== *)
(** * MessageBubble: the icon of an artifact                           *)
(* ================================================================== *)

Module FileIcon.
Import JS MessageBubble.

Fixpoint starts_with (sub s : string) : bool :=
  match sub, s with
  | EmptyString, _ => true
  | String a sub', String b s' => Ascii.eqb a b && starts_with sub' s'
  | String _ _, EmptyString => false
  end.

(** [String.prototype.includes]. *)
Fixpoint includes (s sub : string) : bool :=
  starts_with sub s
  || match s with
     | EmptyString => false
     | String _ rest => includes rest sub
     end.

Definition getFileIcon (mimeType : string) : node :=
  if includes mimeType "spreadsheet" then Icon "FileSpreadsheet" "h-4 w-4 text-green-600"
  else if includes mimeType "wordprocessing" then Icon "FileText" "h-4 w-4 text-blue-600"
  else if includes mimeType "presentation" then Icon "Presentation" "h-4 w-4 text-orange-600"
  else Icon "Download" "h-4 w-4".

End FileIcon.

(* ================================================================== *)
(** * ProjectSelector                                                  *)
(* ================================================================== *)

Module ProjectSelector.
Import JS.

(** [Project] of types/index.ts. *)
Record Project : Type := {
  id : string;
  name : string;
  description : string;
  status : string;
  folder_id : string;
  created_at : string;
  updated_at : string
}.

Record State : Type := {
  projects : list Project;
  isOpen : bool;
  isLoading : bool
}.

Definition initial : State :=
  {| projects := []; isOpen := false; isLoading := true |}.

Definition setProjects (ps : list Project) (st : State) : State :=
  {| projects := ps; isOpen := isOpen st; isLoading := isLoading st |}.

Definition setIsOpen (b : bool) (st : State) : State :=
  {| projects := projects st; isOpen := b; isLoading := isLoading st |}.

Definition setIsLoading (b : bool) (st : State) : State :=
  {| projects := projects st; isOpen := isOpen st; isLoading := b |}.

(** [loadProjects], given how [apiService.getProjects()] settled: [Some]
    the list it resolved to, [None] when it rejected.  The result is the
    state and the calls made to [onProjectChange]. *)
Definition loadProjects (selectedProject : string)
    (settled : option (list Project)) (st : State) : State * list string :=
  match settled with
  | Some projectsData =>
      let st1 := setProjects projectsData st in
      let calls :=
        match projectsData with
        | first :: _ =>
            if String.eqb selectedProject EmptyString then [id first] else []
        | [] => []
        end in
      (setIsLoading false st1, calls)
  | None => (setIsLoading false st, [])
  end.

(** [projects.find(p => String(p.id) === selectedProject)]. *)
Definition selectedProjectData (selectedProject : string) (st : State) : option Project :=
  find (fun p => String.eqb (id p) selectedProject) (projects st).

(** The text of the button. *)
Definition label (selectedProject : string) (st : State) : string :=
  match selectedProjectData selectedProject st with
  | Some p => name p
  | None => "Select Project"
  end.

(** The entries of the menu that carry the highlight classes. *)
Definition highlighted (selectedProject : string) (st : State) : list Project :=
  filter (fun p => String.eqb selectedProject (id p)) (projects st).

(** The click on the button and the click on an entry of the menu. *)
Definition toggle (st : State) : State := setIsOpen (negb (isOpen st)) st.

Definition choose (p : Project) (st : State) : State * list string :=
  (setIsOpen false st, [id p]).

(** The owner of [selectedProject] applies the calls in order
    ([onProjectChange] is its state setter). *)
Definition apply_calls (selectedProject : string) (calls : list string) : string :=
  fold_left (fun _ c => c) calls selectedProject.

End ProjectSelector.

(* ================================================================== *)
(** * ApiService (services/api.ts)                                     *)
(* ================================================================== *)

Module ApiService.
Import JS Builtins.

(** [ToBoolean]. *)
Definition ToBoolean (v : value) : bool :=
  match v with
  | VUndefined | VNull => false
  | VBool b => b
  | VNum n => Number_truthy n
  | VStr s => String_truthy s
  | VArr _ | VObj _ => true
  end.

(** A record of header values: an object with string properties, in
    insertion order. *)
Definition Headers : Type := list (string * string).

(** Writing a property: an existing key keeps its place and takes the new
    value, a new key goes last. *)
Fixpoint assign (obj : Headers) (k v : string) : Headers :=
  match obj with
  | [] => [(k, v)]
  | (k', v') :: rest =>
      if String.eqb k k' then (k', v) :: rest else (k', v') :: assign rest k v
  end.

(** [{...obj, ...src}]. *)
Definition spread (obj src : Headers) : Headers :=
  fold_left (fun o kv => assign o (fst kv) (snd kv)) src obj.

Fixpoint header (k : string) (obj : Headers) : option string :=
  match obj with
  | [] => None
  | (k', v) :: rest => if String.eqb k k' then Some v else header k rest
  end.

(** The fields of [RequestInit] the service uses. *)
Record RequestInit : Type := {
  method : option string;
  body : option string;
  headers : option Headers
}.

Definition no_options : RequestInit :=
  {| method := None; body := None; headers := None |}.

(** The two arguments of a call to [fetch]. *)
Record FetchCall : Type := {
  fetch_url : string;
  fetch_init : RequestInit
}.

(** A response: its status line, and what [response.json()] resolves to
    ([None] when it rejects). *)
Record Response : Type := {
  status : Z;
  statusText : string;
  json : option value
}.

(** [response.ok]: the status is in the range 200-299. *)
Definition ok (r : Response) : bool := (200 <=? status r) && (status r <=? 299).

(** Why an [async] method rejected. *)
Inductive Failure : Type :=
| FetchRejected
| JsonRejected
| Thrown (e : Exn)
| HttpError (message : string).

(** The service object: [baseUrl] and [token]; the token is [null], a
    string read from storage, or whatever a login response carried. *)
Record Service : Type := {
  baseUrl : string;
  token : value
}.

(** The service together with the [access_token] item of
    [localStorage]. *)
Record World : Type := {
  stored_token : option string;
  service : Service
}.

Definition API_BASE_URL (VITE_API_URL : option string) : string :=
  match VITE_API_URL with
  | Some u => String_or u "http://localhost:8000"
  | None => "http://localhost:8000"
  end.

(** [new ApiService()]. *)
Definition constructor (VITE_API_URL stored : option string) : Service :=
  {| baseUrl := API_BASE_URL VITE_API_URL;
     token := match stored with
              | Some s => VStr s
              | None => VNull
              end |}.

Section WithHost.
Context {host : Host}.

(** How the network answers a call: [None] when [fetch] rejects. *)
Variable fetch : FetchCall -> option Response.

(** The [headers] object of [request]. *)
Definition request_headers (svc : Service) (options : RequestInit) : Exn + Headers :=
  match
    (if ToBoolean (token svc) then
       match ToString (token svc) with
       | Some t => inr [("Authorization", "Bearer " ++ t)]
       | None => inl TypeError
       end
     else inr [])
  with
  | inl e => inl e
  | inr authorization =>
      inr (spread (spread [("Content-Type", "application/json")] authorization)
                  (match headers options with
                   | Some h => h
                   | None => []
                   end))
  end.

Definition request (svc : Service) (endpoint : string) (options : RequestInit)
  : Failure + value :=
  let url := baseUrl svc ++ endpoint in
  match request_headers svc options with
  | inl e => inl (Thrown e)
  | inr h =>
      match fetch {| fetch_url := url;
                     fetch_init := {| method := method options;
                                      body := body options;
                                      headers := Some h |} |} with
      | None => inl FetchRejected
      | Some response =>
          if negb (ok response) then
            let errorDetail :=
              match json response with
              | Some v => v
              | None => VObj [("detail", VStr (statusText response))]
              end in
            match get errorDetail "detail" with
            | inl e => inl (Thrown e)
            | inr detail =>
                match ToString detail with
                | None => inl (Thrown TypeError)
                | Some shown =>
                    inl (HttpError ("HTTP error! status: " ++
                                    string_of_Z (status response) ++
                                    ". Detail: " ++ shown))
                end
            end
          else
            match json response with
            | Some v => inr v
            | None => inl JsonRejected
            end
      end
  end.

Definition with_token (w : World) (t : value) : World :=
  {| stored_token := stored_token w;
     service := {| baseUrl := baseUrl (service w); token := t |} |}.

Definition with_stored (w : World) (s : option string) : World :=
  {| stored_token := s; service := service w |}.

Definition login (username password : string) (w : World) : (Failure + value) * World :=
  match request (service w) "/api/v1/auth/login"
          {| method := Some "POST";
             body := Some (JSON_stringify
                             (VObj [ ("username", VStr username);
                                     ("password", VStr password) ]));
             headers := None |} with
  | inl f => (inl f, w)
  | inr response =>
      match get response "access_token" with
      | inl e => (inl (Thrown e), w)
      | inr t =>
          let w1 := with_token w t in
          match ToString t with
          | None => (inl (Thrown TypeError), w1)
          | Some text => (inr response, with_stored w1 (Some text))
          end
      end
  end.

Definition logout (w : World) : (Failure + value) * World :=
  match request (service w) "/api/v1/auth/logout"
          {| method := Some "POST"; body := None; headers := None |} with
  | inl f => (inl f, w)
  | inr _ => (inr VUndefined, with_stored (with_token w VNull) None)
  end.

Definition getCurrentUser (w : World) : Failure + value :=
  request (service w) "/api/v1/auth/me" no_options.

Definition getProjects (w : World) : Failure + value :=
  request (service w) "/api/v1/projects/" no_options.

Definition getProject (projectId : string) (w : World) : Failure + value :=
  request (service w) ("/api/v1/projects/" ++ projectId) no_options.

Definition getChatHistory (sessionId : string) (w : World) : Failure + value :=
  request (service w) ("/api/v1/chat/history/" ++ sessionId) no_options.

(** What the network receives for a request, when the headers could be
    built. *)
Definition call_of (svc : Service) (endpoint : string) (options : RequestInit)
  : option FetchCall :=
  match request_headers svc options with
  | inl _ => None
  | inr h =>
      Some {| fetch_url := baseUrl svc ++ endpoint;
              fetch_init := {| method := method options;
                               body := body options;
                               headers := Some h |} |}
  end.

End WithHost.
End ApiService.

(* ================================================================== *)
(** * The application shell (App.tsx of the front end)                 *)
(* ================================================================== *)

Module AppShell.
Import JS.

(** The three state cells; the user object is kept as the chat component
    reads it. *)
Record State : Type := {
  user : option ChatInterface.User;
  selectedProject : string;
  isAuthenticated : bool
}.

Definition initial : State :=
  {| user := None; selectedProject := EmptyString; isAuthenticated := false |}.

Definition demo_user : ChatInterface.User :=
  {| ChatInterface.name := "Demo User"; ChatInterface.tenant_id := None |}.

(** The first effect; [token] is [localStorage.getItem('access_token')]. *)
Definition check_token (token : option string) (st : State) : State :=
  match token with
  | Some t =>
      if String_truthy t then
        {| user := Some demo_user;
           selectedProject := selectedProject st;
           isAuthenticated := true |}
      else st
  | None => st
  end.

Definition onAuthSuccess (u : ChatInterface.User) (st : State) : State :=
  {| user := Some u; selectedProject := selectedProject st; isAuthenticated := true |}.

Definition setSelectedProject (projectId : string) (st : State) : State :=
  {| user := user st; selectedProject := projectId;
     isAuthenticated := isAuthenticated st |}.

(** The click on the settings button: the stored token is removed, the
    state reset; the service object is not involved. *)
Definition logout (w : ApiService.World) (st : State) : ApiService.World * State :=
  (ApiService.with_stored w None,
   {| user := None; selectedProject := selectedProject st; isAuthenticated := false |}).

(** What [App] returns: the login screen, or the main screen with the
    props it gives to the project selector and to the chat. *)
Inductive Screen : Type :=
| AuthWrapper
| Main (props : ChatInterface.Props).

Definition render (st : State) : Screen :=
  if negb (isAuthenticated st) then AuthWrapper
  else Main {| ChatInterface.selectedProject := selectedProject st;
               ChatInterface.user := user st |}.

End AppShell.

(* ================================================================== *)
(** * MicrositePreview, and where the chat shows it                    *)
(* ================================================================== *)

Module MicrositePreview.
Import JS ChatInterface.

(** [{message.microsite && (<MicrositePreview ... />)}]: the preview is
    mounted when the value is truthy. *)
Definition shows_preview (m : Message) : bool := ApiService.ToBoolean (microsite m).

(** [micrositeData.url || 'http://localhost:5173'], the address of both
    the frame and the link. *)
Definition micrositeUrl (micrositeData : value) : Exn + value :=
  match get micrositeData "url" with
  | inl e => inl e
  | inr u =>
      inr (if ApiService.ToBoolean u then u else VStr "http://localhost:5173")
  end.

End MicrositePreview.

(* ================================================================== *)
(** * Dashboard: the card of a project                                 *)
(* ================================================================== *)

Module Dashboard.
Import JS Builtins Microsite.

(** Document nodes, with the inline style of an element when it has
    one. *)
Inductive node : Type :=
| Text (s : string)
| Element (tag className : string) (style : option (string * string))
          (children : list node)
| Icon (name className : string).

Fixpoint textContent (n : node) : string :=
  match n with
  | Text s => s
  | Element _ _ _ children =>
      fold_right (fun c acc => textContent c ++ acc) EmptyString children
  | Icon _ _ => EmptyString
  end.

Section WithHost.
Context {host : Host}.

(** The progress bar of a completion [x]: the number is printed by
    [ToString], as a child and in the template of the width. *)
Definition progress (x : number) : node :=
  Element "div" "mt-3" None
    [ Element "div" "flex justify-between text-sm text-gray-600 mb-1" None
        [ Element "span" EmptyString None [Text "Progress"];
          Element "span" EmptyString None [Text (Number_toString x); Text "%"] ];
      Element "div" "w-full bg-gray-200 rounded-full h-2" None
        [ Element "div" "bg-blue-600 h-2 rounded-full"
            (Some ("width", Number_toString x ++ "%")) [] ] ].

(** [{project.completion && (...)}]: an absent completion renders
    nothing; a falsy number (zero, NaN) is the value of the expression and
    renders as its text. *)
Definition progress_children (completion : option number) : list node :=
  match completion with
  | None => []
  | Some x => if Number_truthy x then [progress x] else [Text (Number_toString x)]
  end.

Definition render_project (project : Project) : node :=
  Element "div" "border border-gray-200 rounded-lg p-4" None
    ([ Element "div" "flex items-start justify-between" None
         [ Element "div" "flex-1" None
             [ Element "h3" "font-medium text-gray-900" None
                 [Text (project_title project)];
               Element "p" "text-sm text-gray-600 mt-1" None
                 [Text (project_description project)];
               Element "div" "flex items-center mt-2" None
                 [ Icon "CheckCircle" "h-4 w-4 text-green-500 mr-2";
                   Element "span" "text-sm text-gray-700" None
                     [Text "Status: "; Text (status project)] ] ] ] ]
     ++ progress_children (completion project))%list.

End WithHost.
End Dashboard.

(* ================================================================== *)
(** * More examples to run on                                          *)
(* ================================================================== *)

Module DemoMore.
Import JS.

Definition p_mars : ProjectSelector.Project :=
  {| ProjectSelector.id := "1";
     ProjectSelector.name := "MARS Analytics Platform";
     ProjectSelector.description := "Comprehensive analytics solution for MARS operations";
     ProjectSelector.status := "active";
     ProjectSelector.folder_id := "demo_folder_123";
     ProjectSelector.created_at := "2024-01-01T00:00:00Z";
     ProjectSelector.updated_at := "2024-01-01T00:00:00Z" |}.

Definition p_shell : ProjectSelector.Project :=
  {| ProjectSelector.id := "2";
     ProjectSelector.name := "Shell Production Optimization";
     ProjectSelector.description := "AI-driven optimization for Shell production facilities";
     ProjectSelector.status := "active";
     ProjectSelector.folder_id := "demo_folder_456";
     ProjectSelector.created_at := "2024-01-01T00:00:00Z";
     ProjectSelector.updated_at := "2024-01-01T00:00:00Z" |}.

(** The selector once both projects are loaded, its menu open. *)
Definition loaded : ProjectSelector.State :=
  {| ProjectSelector.projects := [p_mars; p_shell];
     ProjectSelector.isOpen := true;
     ProjectSelector.isLoading := false |}.

Definition token_response : value :=
  VObj [ ("access_token", VStr "tok123"); ("token_type", VStr "bearer") ].

Definition plain_response : value := VObj [ ("message", VStr "ok") ].

Definition reply (s : Z) (text : string) (b : option value) : ApiService.Response :=
  {| ApiService.status := s; ApiService.statusText := text; ApiService.json := b |}.

(** A back end: the login answers with a token, the logout with an empty
    204, the project list refuses, anything else is unreachable. *)
Definition network (call : ApiService.FetchCall) : option ApiService.Response :=
  let u := ApiService.fetch_url call in
  if String.eqb u "http://localhost:8000/api/v1/auth/login"
  then Some (reply 200 "OK" (Some token_response))
  else if String.eqb u "http://localhost:8000/api/v1/auth/logout"
  then Some (reply 204 "No Content" None)
  else if String.eqb u "http://localhost:8000/api/v1/projects/"
  then Some (reply 401 "Unauthorized"
               (Some (VObj [ ("detail", VStr "Not authenticated") ])))
  else None.

(** A back end whose login answer carries no token. *)
Definition network_without_token (call : ApiService.FetchCall)
  : option ApiService.Response :=
  Some (reply 200 "OK" (Some plain_response)).

(** A back end that answers everything with an empty 204. *)
Definition network_without_body (call : ApiService.FetchCall)
  : option ApiService.Response :=
  Some (reply 204 "No Content" None).

(** The service of a page loaded without, and with, a stored token. *)
Definition fresh : ApiService.World :=
  {| ApiService.stored_token := None;
     ApiService.service := ApiService.constructor None None |}.

Definition signed_in : ApiService.World :=
  {| ApiService.stored_token := Some "tok123";
     ApiService.service := ApiService.constructor None (Some "tok123") |}.

Definition shell_state : AppShell.State :=
  {| AppShell.user := Some AppShell.demo_user;
     AppShell.selectedProject := "6";
     AppShell.isAuthenticated := true |}.

Definition analyst : ChatInterface.User :=
  {| ChatInterface.name := "Analyst"; ChatInterface.tenant_id := Some "acme" |}.

(** 0.004 as [JSON.parse] reads it. *)
Definition score_0004 : number := Number_div (Number_of_Z 4) (Number_of_Z 1000).

(** A response envelope with a microsite. *)
Definition microsite_text : string :=
  "{" ++ Demo.q "type" ++ ":" ++ Demo.q "response" ++ "," ++
  Demo.q "response" ++ ":" ++ Demo.q "Dashboard ready" ++ "," ++
  Demo.q "microsite" ++ ":{" ++ Demo.q "title" ++ ":" ++ Demo.q "KPIs" ++ "," ++
  Demo.q "url" ++ ":" ++ Demo.q "http://localhost:5173/?data=%7B%7D" ++ "}}".

Definition microsite_fields : list (string * value) :=
  [ ("title", VStr "KPIs"); ("url", VStr "http://localhost:5173/?data=%7B%7D") ].

Definition microsite_envelope : value :=
  VObj [ ("type", VStr "response");
         ("response", VStr "Dashboard ready");
         ("microsite", VObj microsite_fields) ].

Definition parse_more (s : string) : option value :=
  if String.eqb s microsite_text then Some microsite_envelope else Demo.parse s.

Definition demo_host_more : Host := {|
  JSON_parse := parse_more;
  JSON_stringify := Demo.stringify;
  decodeURIComponent := Demo.decode;
  Number_toString_finite := fun _ _ _ => "?"
|}.

Definition unstarted : Microsite.Project :=
  {| Microsite.project_id := "pilot";
     Microsite.project_title := "Pilot";
     Microsite.project_description := "Not started yet";
     Microsite.status := "Planned";
     Microsite.completion := Some (S754_zero false) |}.

(** A [data] parameter that is JSON as it stands, the string [100%],
    and has no percent-decoding: the percent sign is followed by a
    quote. *)
Definition percent_text : string := Demo.q "100%".

Definition parse_percent (s : string) : option value :=
  if String.eqb s percent_text then Some (VStr "100%") else Demo.parse s.

Definition percent_host : Host := {|
  JSON_parse := parse_percent;
  JSON_stringify := Demo.stringify;
  decodeURIComponent := Demo.decode;
  Number_toString_finite := fun _ _ _ => "?"
|}.

(** A [data] parameter for a dashboard without entries. *)
Definition dashboard_text : string :=
  "{" ++ Demo.q "title" ++ ":" ++ Demo.q "Quarterly review" ++ "," ++
  Demo.q "client" ++ ":{" ++ Demo.q "name" ++ ":" ++ Demo.q "Acme" ++ "," ++
  Demo.q "sector" ++ ":" ++ Demo.q "Energy" ++ "," ++
  Demo.q "summary" ++ ":" ++ Demo.q "No projects yet" ++ "}," ++
  Demo.q "projects" ++ ":[]," ++ Demo.q "kpis" ++ ":[]," ++
  Demo.q "valueOutcomes" ++ ":[]}".

Definition dashboard_value : value :=
  VObj [ ("title", VStr "Quarterly review");
         ("client", VObj [ ("name", VStr "Acme"); ("sector", VStr "Energy");
                           ("summary", VStr "No projects yet") ]);
         ("projects", VArr []); ("kpis", VArr []); ("valueOutcomes", VArr []) ].

Definition parse_dashboard (s : string) : option value :=
  if String.eqb s dashboard_text then Some dashboard_value else Demo.parse s.

Definition dashboard_host : Host := {|
  JSON_parse := parse_dashboard;
  JSON_stringify := Demo.stringify;
  decodeURIComponent := Demo.decode;
  Number_toString_finite := fun _ _ _ => "?"
|}.

(** A user without tenant and one with a tenant, for the chat props. *)
Definition props_analyst : ChatInterface.Props :=
  {| ChatInterface.selectedProject := "7";
     ChatInterface.user := Some analyst |}.

(** Two answers read at different clock readings. *)
Definition clock1 : ChatInterface.Clock :=
  {| ChatInterface.Date_now := 1700000000001;
     ChatInterface.toISOString := "2023-11-14T22:13:20.001Z" |}.

Definition two_answers : list Session.Event :=
  [ Session.Received Demo.response_text Demo.clock0;
    Session.Received Demo.error_text clock1 ].

End DemoMore.

(* ================================================================== *)
(** * Properties of the chat client                                    *)
(* ================================================================== *)

Section ChatProperties.
Import JS Builtins ChatInterface Session.
Context {host : Host}.

Ltac step_handler :=
  unfold onmessage, dispatch, sendMessage, onopen, onerror, onclose, onChange,
    bind, lift, ret, throw, read, send,
    setMessages, setIsLoading, setInputMessage, setWebsocket,
    state_of, frames_of, thrown, field in *;
  cbn in *.

(** An envelope whose [type] reads as a string is an object. *)
Lemma typed_is_object (data : value) (t : string) :
  get data "type" = inr (VStr t) ->
  exists fields, data = VObj fields /\ lookup "type" fields = Some (VStr t).
Proof.
  destruct data; cbn; try discriminate.
  intros H. exists fields. split; [reflexivity|].
  destruct (lookup "type" fields); congruence.
Qed.

Lemma strict_eq_string_true (v : value) (s : string) :
  strict_eq_string v s = true <-> v = VStr s.
Proof.
  destruct v; cbn; split; try discriminate.
  - intros H. apply String.eqb_eq in H. now subst.
  - intros [= ->]. apply String.eqb_refl.
Qed.

Lemma has_type_true (data : value) (t : string) :
  has_type data t = true <-> get data "type" = inr (VStr t).
Proof.
  unfold has_type. destruct (get data "type") as [e|v].
  - split; discriminate.
  - rewrite strict_eq_string_true. split; congruence.
Qed.

Lemma dispatch_response (data : value) (clock : Clock) (st : State) :
  get data "type" = inr (VStr "response") ->
  dispatch data clock st =
    (inr tt,
     with_messages st (messages st ++ [assistantMessage data clock])%list false,
     []).
Proof.
  intros H. destruct (typed_is_object _ _ H) as (fields & -> & Ht).
  unfold assistantMessage, with_messages. step_handler. rewrite Ht. cbn.
  destruct (lookup "response" fields), (lookup "sources" fields),
    (lookup "microsite" fields); reflexivity.
Qed.

Lemma dispatch_error (data : value) (clock : Clock) (st : State) :
  get data "type" = inr (VStr "error") ->
  dispatch data clock st =
    (inr tt,
     with_messages st (messages st ++ [errorMessage data clock])%list false,
     []).
Proof.
  intros H. destruct (typed_is_object _ _ H) as (fields & -> & Ht).
  unfold errorMessage, with_messages. step_handler. rewrite Ht. cbn.
  destruct (lookup "error" fields); reflexivity.
Qed.

Lemma dispatch_artifact (data : value) (clock : Clock) (st : State) :
  get data "type" = inr (VStr "artifact_generated") ->
  dispatch data clock st =
    match get (field data "artifact") "filename" with
    | inl e => (inl e, st, [])
    | inr filename =>
        match ToString filename with
        | None => (inl TypeError, st, [])
        | Some shown =>
            (inr tt,
             with_messages st
               (messages st ++ [artifactMessage (field data "artifact") shown clock])%list
               (isLoading st),
             [])
        end
    end.
Proof.
  intros H. destruct (typed_is_object _ _ H) as (fields & -> & Ht).
  unfold artifactMessage, with_messages. step_handler. rewrite Ht. cbn.
  destruct (lookup "artifact" fields) as [art|]; cbn; [|reflexivity].
  destruct (get art "filename") as [e|filename]; cbn; [reflexivity|].
  destruct (ToString filename); reflexivity.
Qed.

Lemma dispatch_other (data : value) (clock : Clock) (st : State) :
  has_type data "response" = false ->
  has_type data "artifact_generated" = false ->
  has_type data "error" = false ->
  state_of (dispatch data clock st) = st /\ frames_of (dispatch data clock st) = [].
Proof.
  unfold has_type. intros H1 H2 H3.
  unfold dispatch, bind, lift, state_of, frames_of.
  destruct (get data "type") as [e|t]; cbn; [auto|].
  rewrite H1, H2, H3. cbn. auto.
Qed.

(** [sendMessage] either does nothing, or appends the user message, sets
    the loading flag, hands one frame to the socket and clears the
    input. *)
Lemma sendMessage_blocked (props : Props) (clock : Clock) (st : State) :
  negb (String_truthy (trim (inputMessage st)))
  || negb (connected (websocket st)) || isLoading st = true ->
  sendMessage props clock st = (inr tt, st, []).
Proof.
  intros H. unfold sendMessage, bind, read. cbn. rewrite H. reflexivity.
Qed.

Lemma sendMessage_sends (props : Props) (clock : Clock) (st : State) (ws : WebSocket) :
  websocket st = Some ws ->
  String_truthy (trim (inputMessage st)) = true ->
  isLoading st = false ->
  sendMessage props clock st =
    (inr tt,
     {| messages :=
          (messages st ++
             [ {| id := "msg_" ++ string_of_Z (Date_now clock) ++ "_user";
                  type := T_user;
                  content := VStr (inputMessage st);
                  timestamp := toISOString clock;
                  sources := VUndefined;
                  microsite := VUndefined;
                  artifact := VUndefined |} ])%list;
        inputMessage := EmptyString;
        isLoading := true;
        websocket := Some ws |},
     [(ws, JSON_stringify (chat_payload (inputMessage st) props))]).
Proof.
  intros Hw Hin Hl. unfold sendMessage, bind, read. cbn.
  rewrite Hw, Hin, Hl. cbn. rewrite Hw. reflexivity.
Qed.

(** ** Inbound envelopes *)

(** C1.  An inbound event whose parsed type is [response] appends exactly
    one message: an assistant message whose content is the envelope's
    [response], carrying the envelope's [sources] and [microsite]
    ([undefined] when the envelope has none).  An event of any other kind
    appends only messages without sources. *)
Theorem response_appends_assistant_message :
  (forall (event_data : string) (data : value) (clock : Clock) (st : State),
      JSON_parse event_data = Some data ->
      get data "type" = inr (VStr "response") ->
      exists m,
        messages (state_of (onmessage event_data clock st)) = (messages st ++ [m])%list
        /\ thrown (onmessage event_data clock st) = None
        /\ type m = T_assistant
        /\ content m = field data "response"
        /\ sources m = field data "sources"
        /\ microsite m = field data "microsite")
  /\
  (forall (event_data : string) (clock : Clock) (st : State),
      (forall data, JSON_parse event_data = Some data ->
                    get data "type" <> inr (VStr "response")) ->
      exists new,
        messages (state_of (onmessage event_data clock st)) = (messages st ++ new)%list
        /\ Forall (fun m => sources m = VUndefined) new).
Proof.
  split.
  - intros event_data data clock st Hp Ht.
    unfold onmessage. rewrite Hp, (dispatch_response _ _ _ Ht).
    exists (assistantMessage data clock). cbn. auto 10.
  - intros event_data clock st Hn.
    unfold onmessage. destruct (JSON_parse event_data) as [data|] eqn:Hp.
    2:{ exists []. cbn. rewrite app_nil_r. auto. }
    specialize (Hn data eq_refl).
    destruct (has_type data "response") eqn:H1.
    { apply has_type_true in H1. contradiction. }
    destruct (has_type data "artifact_generated") eqn:H2.
    { apply has_type_true in H2. rewrite (dispatch_artifact _ _ _ H2).
      destruct (get (field data "artifact") "filename") as [e|filename].
      { exists []. cbn. rewrite app_nil_r. auto. }
      destruct (ToString filename) as [shown|].
      - eexists [_]. cbn. split; [reflexivity|]. repeat constructor.
      - exists []. cbn. rewrite app_nil_r. auto. }
    destruct (has_type data "error") eqn:H3.
    { apply has_type_true in H3. rewrite (dispatch_error _ _ _ H3).
      eexists [_]. cbn. split; [reflexivity|]. repeat constructor. }
    destruct (dispatch_other data clock st H1 H2 H3) as [Hs _].
    rewrite Hs. exists []. rewrite app_nil_r. auto.
Qed.

(** C5.  An [artifact_generated] envelope whose [artifact] is an object
    with a printable [filename] appends exactly one artifact message: its
    text quotes the file name, it carries the [artifact] object as
    received, and every other state cell, the loading flag among them,
    keeps its value; nothing is sent and nothing is thrown. *)
Theorem artifact_appends_and_frames_rest
    (event_data : string) (data : value) (fields : list (string * value))
    (shown : string) (clock : Clock) (st : State) :
  JSON_parse event_data = Some data ->
  get data "type" = inr (VStr "artifact_generated") ->
  field data "artifact" = VObj fields ->
  ToString (field (VObj fields) "filename") = Some shown ->
  onmessage event_data clock st =
    (inr tt,
     {| messages :=
          (messages st ++
             [ {| id := "msg_" ++ string_of_Z (Date_now clock) ++ "_art";
                  type := T_artifact_generated;
                  content :=
                    VStr ("Your requested artifact, " ++ quote ++ shown ++ quote ++
                          ", is ready! Click the link below to download.");
                  timestamp := toISOString clock;
                  sources := VUndefined;
                  microsite := VUndefined;
                  artifact := VObj fields |} ])%list;
        inputMessage := inputMessage st;
        isLoading := isLoading st;
        websocket := websocket st |},
     [])
  /\ (forall f, lookup "filename" fields = Some (VStr f) -> shown = f).
Proof.
  intros Hp Ht Ha Hs. split.
  - unfold onmessage. rewrite Hp, (dispatch_artifact _ _ _ Ht), Ha.
    unfold field in Hs. cbn in Hs. cbn.
    destruct (lookup "filename" fields) as [filename|]; rewrite Hs; reflexivity.
  - intros f Hf. unfold field in Hs. cbn in Hs. rewrite Hf in Hs. cbn in Hs.
    congruence.
Qed.

(** C6.  An [error] envelope appends exactly one message whose content is
    the envelope's [error] value, unchanged, and clears the loading flag;
    after it, a non-blank input is sent on the open socket. *)
Theorem error_appends_and_unblocks
    (event_data : string) (data : value) (clock : Clock) (st : State) :
  JSON_parse event_data = Some data ->
  get data "type" = inr (VStr "error") ->
  onmessage event_data clock st =
    (inr tt,
     {| messages :=
          (messages st ++
             [ {| id := "msg_" ++ string_of_Z (Date_now clock) ++ "_err";
                  type := T_assistant;
                  content := field data "error";
                  timestamp := toISOString clock;
                  sources := VUndefined;
                  microsite := VUndefined;
                  artifact := VUndefined |} ])%list;
        inputMessage := inputMessage st;
        isLoading := false;
        websocket := websocket st |},
     [])
  /\ (forall ws props clock',
         websocket st = Some ws ->
         String_truthy (trim (inputMessage st)) = true ->
         frames_of (sendMessage props clock' (state_of (onmessage event_data clock st)))
         = [(ws, JSON_stringify (chat_payload (inputMessage st) props))]).
Proof.
  intros Hp Ht.
  assert (E : onmessage event_data clock st =
              (inr tt,
               with_messages st (messages st ++ [errorMessage data clock])%list false,
               [])).
  { unfold onmessage. rewrite Hp. apply dispatch_error, Ht. }
  split; [exact E|].
  intros ws props clock' Hw Hin. rewrite E.
  unfold state_of, with_messages. cbn [fst snd].
  erewrite sendMessage_sends; cbn; eauto.
Qed.

(** C9.  An inbound event whose parsed type is none of [response],
    [artifact_generated], [error] (or that has no parsed type at all)
    changes nothing: the state, loading flag and message list included,
    is the same afterwards and nothing is sent. *)
Theorem other_envelope_changes_nothing
    (event_data : string) (clock : Clock) (st : State) :
  (forall data t,
      JSON_parse event_data = Some data ->
      get data "type" = inr (VStr t) ->
      t <> "response" /\ t <> "artifact_generated" /\ t <> "error") ->
  state_of (onmessage event_data clock st) = st
  /\ frames_of (onmessage event_data clock st) = [].
Proof.
  intros Hn. unfold onmessage.
  destruct (JSON_parse event_data) as [data|]; [|split; reflexivity].
  apply dispatch_other.
  - destruct (has_type data "response") eqn:H; [|reflexivity].
    apply has_type_true in H. destruct (Hn _ _ eq_refl H) as (A & _). congruence.
  - destruct (has_type data "artifact_generated") eqn:H; [|reflexivity].
    apply has_type_true in H. destruct (Hn _ _ eq_refl H) as (_ & A & _). congruence.
  - destruct (has_type data "error") eqn:H; [|reflexivity].
    apply has_type_true in H. destruct (Hn _ _ eq_refl H) as (_ & _ & A). congruence.
Qed.

(** ** Runs *)

Lemma onmessage_effect (event_data : string) (clock : Clock) (st : State) :
  frames_of (onmessage event_data clock st) = []
  /\ isLoading (state_of (onmessage event_data clock st)) =
     match JSON_parse event_data with
     | Some data => if is_answer data then false else isLoading st
     | None => isLoading st
     end.
Proof.
  unfold onmessage. destruct (JSON_parse event_data) as [data|]; [|split; reflexivity].
  unfold is_answer.
  destruct (has_type data "response") eqn:H1.
  { apply has_type_true in H1. rewrite (dispatch_response _ _ _ H1). split; reflexivity. }
  destruct (has_type data "error") eqn:H3.
  { apply has_type_true in H3. rewrite (dispatch_error _ _ _ H3). split; reflexivity. }
  destruct (has_type data "artifact_generated") eqn:H2.
  { apply has_type_true in H2. rewrite (dispatch_artifact _ _ _ H2).
    destruct (get (field data "artifact") "filename") as [e|filename];
      [split; reflexivity|].
    destruct (ToString filename); split; reflexivity. }
  destruct (dispatch_other data clock st H1 H2 H3) as [Hs Hf].
  rewrite Hs, Hf. split; reflexivity.
Qed.

Lemma sendMessage_cases (props : Props) (clock : Clock) (st : State) :
  (sendMessage props clock st = (inr tt, st, []))
  \/ (exists ws,
        isLoading st = false
        /\ isLoading (state_of (sendMessage props clock st)) = true
        /\ frames_of (sendMessage props clock st)
           = [(ws, JSON_stringify (chat_payload (inputMessage st) props))]).
Proof.
  destruct (negb (String_truthy (trim (inputMessage st)))
            || negb (connected (websocket st)) || isLoading st) eqn:G.
  - left. apply sendMessage_blocked, G.
  - right. apply orb_false_elim in G. destruct G as [G Hl].
    apply orb_false_elim in G. destruct G as [Hin Hw].
    apply negb_false_iff in Hin. apply negb_false_iff in Hw.
    destruct (websocket st) as [ws|] eqn:Ew; [|discriminate].
    exists ws. rewrite (sendMessage_sends props clock st ws Ew Hin Hl).
    repeat split; auto.
Qed.

Lemma sent_app (t1 t2 : list Wire) : sent (t1 ++ t2) = (sent t1 ++ sent t2)%list.
Proof. unfold sent. apply flat_map_app. Qed.

Lemma sent_outbound (l : list Frame) : sent (map Outbound l) = l.
Proof. induction l as [|f l IH]; cbn; [reflexivity|]. unfold sent in IH. now rewrite IH. Qed.

Lemma sent_observe (ev : Event) : sent (observe ev) = [].
Proof.
  destruct ev; cbn; try reflexivity.
  destruct (JSON_parse event_data); reflexivity.
Qed.

Lemma run_cons (st : State) (ev : Event) (rest : list Event) :
  run st (ev :: rest) =
    (fst (run (state_of (handle ev st)) rest),
     (observe ev ++ map Outbound (frames_of (handle ev st))
        ++ snd (run (state_of (handle ev st)) rest))%list).
Proof. cbn. destruct (run (state_of (handle ev st)) rest). reflexivity. Qed.

Lemma handle_frames (ev : Event) (st : State) (f : Frame) :
  List.In f (frames_of (handle ev st)) ->
  exists message tenant_id selected, snd f = chat_frame message tenant_id selected.
Proof.
  destruct ev; cbn [handle].
  - cbn. tauto.
  - cbn. tauto.
  - destruct (sendMessage_cases props clock st) as [E|(ws & _ & _ & E)].
    + rewrite E. cbn. tauto.
    + rewrite E. intros [<-|[]]. cbn [snd].
      exists (inputMessage st), (tenant (user props)), (selectedProject props).
      unfold chat_frame, chat_payload, projectIds.
      destruct (selectedProject props); reflexivity.
  - destruct (onmessage_effect event_data clock st) as [E _]. rewrite E. cbn. tauto.
  - cbn. tauto.
  - cbn. tauto.
Qed.

(** Only [sendMessage] sends, and what it sends is built from the input
    held at that time and from the props it was called with. *)
Lemma frame_of_step (ev : Event) (st : State) (f : Frame) :
  List.In f (frames_of (handle ev st)) ->
  exists props clock ws,
    ev = Submitted props clock
    /\ websocket st = Some ws
    /\ String_truthy (trim (inputMessage st)) = true
    /\ isLoading st = false
    /\ f = (ws, JSON_stringify (chat_payload (inputMessage st) props)).
Proof.
  destruct ev; cbn [handle]; try (cbn; tauto).
  - destruct (negb (String_truthy (trim (inputMessage st)))
              || negb (connected (websocket st)) || isLoading st) eqn:G.
    + rewrite (sendMessage_blocked props clock st G). cbn. tauto.
    + apply orb_false_elim in G. destruct G as [G Hl].
      apply orb_false_elim in G. destruct G as [Hin Hw].
      apply negb_false_iff in Hin. apply negb_false_iff in Hw.
      destruct (websocket st) as [ws|] eqn:Ew; [|discriminate].
      rewrite (sendMessage_sends props clock st ws Ew Hin Hl).
      intros [<-|[]]. exists props, clock, ws. auto 10.
  - destruct (onmessage_effect event_data clock st) as [E _]. rewrite E. cbn. tauto.
Qed.

Lemma frame_origin (evs : list Event) (st : State) (f : Frame) :
  List.In f (sent (snd (run st evs))) ->
  exists pre post props clock ws,
    evs = (pre ++ Submitted props clock :: post)%list
    /\ websocket (fst (run st pre)) = Some ws
    /\ String_truthy (trim (inputMessage (fst (run st pre)))) = true
    /\ isLoading (fst (run st pre)) = false
    /\ f = (ws, JSON_stringify
                  (chat_payload (inputMessage (fst (run st pre))) props)).
Proof.
  revert st. induction evs as [|ev rest IH]; intros st; [cbn; tauto|].
  rewrite run_cons. cbn [snd].
  rewrite !sent_app, sent_observe, sent_outbound, app_nil_l.
  intros H. apply in_app_or in H. destruct H as [H|H].
  - destruct (frame_of_step ev st f H) as (props & clock & ws & -> & A & B & C & D).
    exists [], rest, props, clock, ws. cbn. auto 10.
  - destruct (IH _ H) as (pre & post & props & clock & ws & -> & A & B & C & D).
    exists (ev :: pre), post, props, clock, ws.
    rewrite run_cons. cbn [fst]. auto 10.
Qed.

(** C3.  Along any run of the component, from any state, every frame
    handed to the socket comes from a call of [sendMessage] and is the
    serialisation of an object with exactly the properties [message],
    [project_context] (itself [tenant_id], [project_ids],
    [selected_project]) and [type], the latter being ["chat"].  The
    message is the input held when [sendMessage] was called; the selected
    project is the [selectedProject] prop of that call, and [project_ids]
    holds it alone when it is a non-empty string and is empty
    otherwise. *)
Theorem every_frame_is_a_chat_message :
  (forall (props : Props) (clock : Clock) (st : State) (f : Frame),
      List.In f (frames_of (sendMessage props clock st)) ->
      websocket st = Some (fst f)
      /\ snd f =
        JSON_stringify
          (VObj [ ("message", VStr (inputMessage st));
                  ("project_context",
                    VObj [ ("tenant_id", VStr (tenant (user props)));
                           ("project_ids",
                             VArr (if String.eqb (selectedProject props) EmptyString
                                   then []
                                   else [VStr (selectedProject props)]));
                           ("selected_project", VStr (selectedProject props)) ]);
                  ("type", VStr "chat") ]))
  /\
  (forall (st : State) (evs : list Event) (f : Frame),
      List.In f (sent (snd (run st evs))) ->
      exists pre post props clock,
        evs = (pre ++ Submitted props clock :: post)%list
        /\ List.In f (frames_of (sendMessage props clock (fst (run st pre))))
        /\ websocket (fst (run st pre)) = Some (fst f)
        /\ snd f =
          JSON_stringify
            (VObj [ ("message", VStr (inputMessage (fst (run st pre))));
                    ("project_context",
                      VObj [ ("tenant_id", VStr (tenant (user props)));
                             ("project_ids",
                               VArr (if String.eqb (selectedProject props) EmptyString
                                     then []
                                     else [VStr (selectedProject props)]));
                             ("selected_project", VStr (selectedProject props)) ]);
                    ("type", VStr "chat") ])).
Proof.
  assert (Shape : forall message props,
             JSON_stringify (chat_payload message props) =
             JSON_stringify
               (VObj [ ("message", VStr message);
                       ("project_context",
                         VObj [ ("tenant_id", VStr (tenant (user props)));
                                ("project_ids",
                                  VArr (if String.eqb (selectedProject props) EmptyString
                                        then []
                                        else [VStr (selectedProject props)]));
                                ("selected_project", VStr (selectedProject props)) ]);
                       ("type", VStr "chat") ])).
  { intros message props. unfold chat_payload, projectIds.
    destruct (selectedProject props); reflexivity. }
  split.
  - intros props clock st f H.
    destruct (frame_of_step (Submitted props clock) st f H)
      as (props' & clock' & ws & [= <- <-] & W & _ & _ & ->).
    cbn [fst snd]. split; [exact W|apply Shape].
  - intros st evs f H.
    destruct (frame_origin evs st f H)
      as (pre & post & props & clock & ws & E & W & T & L & ->).
    exists pre, post, props, clock. cbn [fst snd].
    split; [exact E|]. split; [|split; [exact W|apply Shape]].
    rewrite (sendMessage_sends props clock _ ws W T L). left. reflexivity.
Qed.

(** [onmessage] leaves the input and the socket cell as they are. *)
Lemma onmessage_keeps_loading_only (event_data : string) (clock : Clock) (st : State) :
  inputMessage (state_of (onmessage event_data clock st)) = inputMessage st
  /\ websocket (state_of (onmessage event_data clock st)) = websocket st.
Proof.
  unfold onmessage. destruct (JSON_parse event_data) as [data|]; [|split; reflexivity].
  destruct (has_type data "response") eqn:H1.
  { apply has_type_true in H1. rewrite (dispatch_response _ _ _ H1). split; reflexivity. }
  destruct (has_type data "artifact_generated") eqn:H2.
  { apply has_type_true in H2. rewrite (dispatch_artifact _ _ _ H2).
    destruct (get (field data "artifact") "filename") as [e|filename];
      [split; reflexivity|].
    destruct (ToString filename); split; reflexivity. }
  destruct (has_type data "error") eqn:H3.
  { apply has_type_true in H3. rewrite (dispatch_error _ _ _ H3). split; reflexivity. }
  destruct (dispatch_other data clock st H1 H2 H3) as [Hs _].
  rewrite Hs. split; reflexivity.
Qed.

Lemma peak_ge (c : bool) (t : list Wire) (n : nat) : (n <= peak c n t)%nat.
Proof.
  revert n. induction t as [|w t IH]; intros n; cbn; [lia|].
  destruct w.
  - specialize (IH (S n)). lia.
  - lia.
  - lia.
Qed.

Lemma peak_run (c : bool) (evs : list Event) (st : State) (n : nat) :
  (c = false -> ~ List.In Errored evs) ->
  (n <= 1)%nat ->
  (isLoading st = false -> n = 0%nat) ->
  (peak c n (snd (run st evs)) <= 1)%nat.
Proof.
  revert st n. induction evs as [|ev rest IH]; intros st n Hc Hn Hl; [cbn; lia|].
  assert (Hc' : c = false -> ~ List.In Errored rest).
  { intros E H. apply (Hc E). right. exact H. }
  rewrite run_cons. cbn [snd].
  destruct ev; cbn [handle observe app].
  - (* onopen *)
    apply IH; [exact Hc'|lia|]. cbn. exact Hl.
  - (* onChange *)
    apply IH; [exact Hc'|lia|]. cbn. exact Hl.
  - (* sendMessage *)
    destruct (sendMessage_cases props clock st) as [E|(ws & L0 & L1 & E)].
    + rewrite E. cbn. apply IH; [exact Hc'|lia|]. exact Hl.
    + rewrite E. cbn [map app peak]. rewrite (Hl L0).
      apply IH; [exact Hc'|lia|]. rewrite L1. discriminate.
  - (* onmessage *)
    destruct (onmessage_effect event_data clock st) as [E L]. rewrite E.
    destruct (JSON_parse event_data) as [data|].
    + cbn [map app peak]. apply Nat.max_lub; [lia|].
      apply IH; [exact Hc'| |].
      * destruct (is_answer data); lia.
      * rewrite L. destruct (is_answer data); auto.
    + cbn [map app]. apply IH; [exact Hc'|lia|]. rewrite L. exact Hl.
  - (* onerror *)
    destruct c.
    + cbn [map app peak frames_of]. cbn. apply Nat.max_lub; [lia|].
      apply IH; [exact Hc'|lia|]. reflexivity.
    + exfalso. apply (Hc eq_refl). left. reflexivity.
  - (* onclose *)
    cbn. apply IH; [exact Hc'|lia|]. exact Hl.
Qed.

(** How each handler leaves the loading flag. *)
Lemma handle_loading (ev : Event) (st : State) :
  isLoading (state_of (handle ev st)) =
    match ev with
    | Submitted _ _ =>
        match frames_of (handle ev st) with
        | [] => isLoading st
        | _ :: _ => true
        end
    | Received event_data _ =>
        match JSON_parse event_data with
        | Some data => if is_answer data then false else isLoading st
        | None => isLoading st
        end
    | Errored => false
    | _ => isLoading st
    end.
Proof.
  destruct ev; cbn [handle]; try reflexivity.
  - destruct (sendMessage_cases props clock st) as [E|(ws & _ & L & E)].
    + rewrite E. reflexivity.
    + rewrite E. exact L.
  - apply onmessage_effect.
Qed.

(** C4, as the code has it.  While the loading flag is set [sendMessage]
    does nothing.  The flag is set by a send and cleared by a [response]
    envelope, by an [error] envelope and by a socket error event, and no
    other event changes it.  So along any run, from a state with nothing
    in flight, at most one chat frame is handed to the socket between two
    such events; and along a run without socket error event at most one
    chat frame is unanswered at any time, each answer arriving before the
    next frame is sent. *)
Theorem loading_flag_serialises_sends :
  (forall props clock st,
      isLoading st = true -> sendMessage props clock st = (inr tt, st, []))
  /\ (forall st, isLoading (state_of (onerror st)) = false)
  /\ (forall st evs, (peak true 0 (snd (run st evs)) <= 1)%nat)
  /\ (forall st evs,
         ~ List.In Errored evs -> (peak false 0 (snd (run st evs)) <= 1)%nat)
  /\ (forall ev st,
         isLoading (state_of (handle ev st)) =
           match ev with
           | Submitted _ _ =>
               match frames_of (handle ev st) with
               | [] => isLoading st
               | _ :: _ => true
               end
           | Received event_data _ =>
               match JSON_parse event_data with
               | Some data =>
                   if has_type data "response" || has_type data "error"
                   then false
                   else isLoading st
               | None => isLoading st
               end
           | Errored => false
           | _ => isLoading st
           end)
  /\ (forall event_data data clock st props clock' ws,
         JSON_parse event_data = Some data ->
         has_type data "response" || has_type data "error" = true ->
         websocket st = Some ws ->
         String_truthy (trim (inputMessage st)) = true ->
         frames_of (sendMessage props clock'
                      (state_of (onmessage event_data clock st)))
         = [(ws, JSON_stringify (chat_payload (inputMessage st) props))]).
Proof.
  split; [|split; [|split; [|split; [|split]]]].
  - intros props clock st H. apply sendMessage_blocked. rewrite H.
    apply orb_true_r.
  - reflexivity.
  - intros st evs. apply peak_run; auto. discriminate.
  - intros st evs H. apply peak_run; auto.
  - apply handle_loading.
  - intros event_data data clock st props clock' ws Hp Ha Hw Hin.
    pose proof (handle_loading (Received event_data clock) st) as L.
    cbn [handle] in L. rewrite Hp in L. unfold is_answer in L. rewrite Ha in L.
    destruct (onmessage_keeps_loading_only event_data clock st) as [Ei Ew].
    erewrite sendMessage_sends; [|rewrite Ew; exact Hw|rewrite Ei; exact Hin|exact L].
    cbn. rewrite Ei. reflexivity.
Qed.

(** ** Session identifiers *)

Lemma string_of_Z_inj (a b : Z) : string_of_Z a = string_of_Z b -> a = b.
Proof.
  unfold string_of_Z. intros H.
  assert (N : forall z, Z.to_int z <> Pos Nil /\ Z.to_int z <> Neg Nil).
  { intros [|p|p]; cbn; split; try discriminate;
      intros [= E]; exact (DecimalPos.Unsigned.to_uint_nonnil p E). }
  apply DecimalZ.to_int_inj.
  assert (S : Some (Z.to_int a) = Some (Z.to_int b)).
  { rewrite <- (NilZero.isi (Z.to_int a)), <- (NilZero.isi (Z.to_int b));
      try apply N. now rewrite H. }
  congruence.
Qed.

Lemma append_inj_l (p a b : string) : (p ++ a = p ++ b)%string -> a = b.
Proof. induction p as [|c p IH]; cbn; [auto|]. intros [= E]. auto. Qed.

Lemma sessionId_inj (a b : Z) : sessionId a = sessionId b -> a = b.
Proof. unfold sessionId. intros H. apply string_of_Z_inj, (append_inj_l _ _ _ H). Qed.

(** C7, as the code has it.  The session identifier of a connection is
    ["session_"] followed by the millisecond clock reading taken when the
    connection effect runs, and it is the last segment of the socket URL.
    Two connections have the same identifier exactly when their clock
    readings are equal, so the identifiers of a series of connections are
    pairwise distinct exactly when the readings are. *)
Theorem sessionId_follows_the_clock :
  (forall v now, url (connect v now) = wsUrl v ++ "/ws/" ++ sessionId now)
  /\ (forall a b, sessionId a = sessionId b <-> a = b)
  /\ (forall readings, NoDup (sessionIds readings) <-> NoDup readings).
Proof.
  split; [reflexivity|]. split.
  - intros a b. split; [apply sessionId_inj|congruence].
  - intros readings. unfold sessionIds. split.
    + apply NoDup_map_inv.
    + induction 1 as [|x l Hx Hl IH]; cbn; constructor; auto.
      rewrite in_map_iff. intros (y & E & Hy). apply sessionId_inj in E. now subst.
Qed.

End ChatProperties.

(* ================================================================== *)
(** * Properties of the sources block                                  *)
(* ================================================================== *)

Section BubbleProperties.
Import JS Builtins MessageBubble.
Context {host : Host}.




(** The score of the example is 7385903388887613 * 2^-53, which lies
    within half a unit in the last place of 82/100. *)
Lemma score_082_is_nearest_to_0_82 :
  Demo.score_082 = S754_finite false 7385903388887613 (-53)
  /\ Z.abs (100 * 7385903388887613 - 82 * 2 ^ 53) <= 50.
Proof. split; [reflexivity|]. vm_compute. discriminate. Qed.


(** C8 at the input [{file: "report.pdf", project: "6", score: 0}]: the
    zero score is not suppressed, it is rendered as the bare text [0]
    right after the project, so that the line reads [report.pdf•60].  A
    source without score has nothing after its project. *)
Theorem zero_score_renders_a_bare_zero :
  score_children (Some (S754_zero false)) = [ Text "0" ]
  /\ textContent
       (render_source {| file := "report.pdf"; project := "6"; type := "pdf";
                         score := Some (S754_zero false) |})
     = "report.pdf•60"
  /\ score_children None = []
  /\ textContent
       (render_source {| file := "report.pdf"; project := "6"; type := "pdf";
                         score := None |})
     = "report.pdf•6".
Proof. repeat split. Qed.

End BubbleProperties.

(* ================================================================== *)
(** * Properties of the microsite loader                               *)
(* ================================================================== *)

Section MicrositeProperties.
Import JS Microsite.
Context {host : Host}.

(** C10, as the code has it.  The mount effect never throws.  It stores
    the parsed value in [dashboardData], leaving the rest of the state,
    exactly when the [data] parameter is present and not empty, its
    percent-decoding by [decodeURIComponent] succeeds and the decoded
    text parses as JSON.  In every other case (absent, empty, not
    decodable, decoded text not JSON) the state is unchanged, and on the
    initial state the dashboard is rendered from the built-in sample
    data. *)
Theorem dashboard_replaced_iff_decoded_param_parses
    (dataParam : option string) (st : State) :
  (exists st', useEffect dataParam st = inr st')
  /\ (forall p text v,
        dataParam = Some p -> p <> EmptyString ->
        decodeURIComponent p = Some text -> JSON_parse text = Some v ->
        exists st',
          useEffect dataParam st = inr st'
          /\ dashboardData st' = Parsed v
          /\ isLoading st' = isLoading st)
  /\ ((forall p text v,
          dataParam = Some p -> p <> EmptyString ->
          decodeURIComponent p = Some text -> JSON_parse text = Some v -> False) ->
      useEffect dataParam st = inr st
      /\ (st = initial -> render st = Dashboard (Typed sampleData))).
Proof.
  assert (Truthy : forall p, p <> EmptyString -> String_truthy p = true).
  { intros [|c p'] H; [contradiction|reflexivity]. }
  assert (Falsy : forall p, String_truthy p = false -> p = EmptyString).
  { intros [|c p']; [reflexivity|discriminate]. }
  split; [|split].
  - unfold useEffect, parse_param, try_catch.
    destruct dataParam as [p|]; [|eauto].
    destruct (String_truthy p); [|eauto].
    destruct (decodeURIComponent p) as [text|]; [|eauto].
    destruct (JSON_parse text); eauto.
  - intros p text v -> Hp D J.
    unfold useEffect, parse_param, try_catch.
    rewrite (Truthy p Hp), D, J. eexists. split; [reflexivity|]. cbn. auto.
  - intros Hn. split; [|intros ->; reflexivity].
    unfold useEffect, parse_param, try_catch.
    destruct dataParam as [p|]; [|reflexivity].
    destruct (String_truthy p) eqn:T; [|reflexivity].
    destruct (decodeURIComponent p) as [text|] eqn:D; [|reflexivity].
    destruct (JSON_parse text) as [v|] eqn:J; [|reflexivity].
    exfalso. apply (Hn p text v eq_refl); auto.
    intros ->. discriminate.
Qed.

End MicrositeProperties.

(* ================================================================== *)
(** * The properties on concrete runs                                  *)
(* ================================================================== *)

Section Examples.
Import JS Builtins ChatInterface Session Demo.

Lemma response_appends_assistant_message_witness :
  JSON_parse (Host := demo_host) response_text = Some response_envelope
  /\ get response_envelope "type" = inr (VStr "response")
  /\ (exists m,
        messages (state_of (onmessage (host := demo_host) response_text clock0 typed))
        = (messages typed ++ [m])%list
        /\ thrown (onmessage (host := demo_host) response_text clock0 typed) = None
        /\ type m = T_assistant
        /\ content m = field response_envelope "response"
        /\ sources m = field response_envelope "sources"
        /\ microsite m = field response_envelope "microsite")
  /\ (exists new,
        messages (state_of (onmessage (host := demo_host) artifact_text clock0 typed))
        = (messages typed ++ new)%list
        /\ Forall (fun m => sources m = VUndefined) new).
Proof.
  split; [reflexivity|]. split; [reflexivity|]. split.
  - exact (proj1 (response_appends_assistant_message (host := demo_host))
             response_text response_envelope clock0 typed eq_refl eq_refl).
  - apply (proj2 (response_appends_assistant_message (host := demo_host))
             artifact_text clock0 typed).
    intros data Hp. vm_compute in Hp. injection Hp as <-. discriminate.
Defined.

Lemma artifact_appends_and_frames_rest_witness :
  JSON_parse (Host := demo_host) artifact_text = Some artifact_envelope
  /\ isLoading (state_of (onmessage (host := demo_host) artifact_text clock0 waiting)) = true
  /\ messages (state_of (onmessage (host := demo_host) artifact_text clock0 waiting))
     = [ artifactMessage (VObj artifact_fields) "risk_log.xlsx" clock0 ].
Proof.
  split; [reflexivity|].
  pose proof (proj1 (artifact_appends_and_frames_rest (host := demo_host)
                       artifact_text artifact_envelope artifact_fields
                       "risk_log.xlsx" clock0 waiting
                       eq_refl eq_refl eq_refl eq_refl)) as E.
  rewrite E. split; reflexivity.
Defined.

Lemma error_appends_and_unblocks_witness :
  JSON_parse (Host := demo_host) error_text = Some error_envelope
  /\ isLoading (state_of (onmessage (host := demo_host) error_text clock0 waiting)) = false
  /\ messages (state_of (onmessage (host := demo_host) error_text clock0 waiting))
     = [ errorMessage error_envelope clock0 ]
  /\ content (errorMessage error_envelope clock0) = VStr "Query failed".
Proof.
  split; [reflexivity|].
  pose proof (proj1 (error_appends_and_unblocks (host := demo_host)
                       error_text error_envelope clock0 waiting
                       eq_refl eq_refl)) as E.
  rewrite E. repeat split.
Defined.

Lemma other_envelope_changes_nothing_witness :
  JSON_parse (Host := demo_host) pong_text = Some pong_envelope
  /\ state_of (onmessage (host := demo_host) pong_text clock0 waiting) = waiting
  /\ frames_of (onmessage (host := demo_host) pong_text clock0 waiting) = [].
Proof.
  split; [reflexivity|].
  apply (other_envelope_changes_nothing (host := demo_host) pong_text clock0 waiting).
  intros data t Hp Ht. vm_compute in Hp. injection Hp as <-.
  vm_compute in Ht. injection Ht as <-.
  repeat split; discriminate.
Defined.

Lemma every_frame_is_a_chat_message_witness :
  frames_of (sendMessage (host := demo_host) props6 clock0 typed)
  = [ (socket0, chat_frame (host := demo_host) "What is the efficiency KPI?" "demo" "6") ]
  /\ (websocket typed = Some socket0
      /\ chat_frame (host := demo_host) "What is the efficiency KPI?" "demo" "6" =
         JSON_stringify (Host := demo_host)
           (VObj [ ("message", VStr (inputMessage typed));
                   ("project_context",
                     VObj [ ("tenant_id", VStr (tenant (user props6)));
                            ("project_ids",
                              VArr (if String.eqb (selectedProject props6) EmptyString
                                    then []
                                    else [VStr (selectedProject props6)]));
                            ("selected_project", VStr (selectedProject props6)) ]);
                   ("type", VStr "chat") ]))
  /\ sent (snd (run (host := demo_host) initial send_answer_send))
     = [ (socket0, chat_frame (host := demo_host) "a" "demo" "6");
         (socket0, chat_frame (host := demo_host) "b" "demo" "6") ]
  /\ exists pre post props clock,
       send_answer_send = (pre ++ Submitted props clock :: post)%list
       /\ List.In (socket0, chat_frame (host := demo_host) "b" "demo" "6")
            (frames_of (sendMessage (host := demo_host) props clock
                          (fst (run (host := demo_host) initial pre))))
       /\ websocket (fst (run (host := demo_host) initial pre)) = Some socket0
       /\ chat_frame (host := demo_host) "b" "demo" "6" =
          JSON_stringify (Host := demo_host)
            (VObj [ ("message",
                      VStr (inputMessage (fst (run (host := demo_host) initial pre))));
                    ("project_context",
                      VObj [ ("tenant_id", VStr (tenant (user props)));
                             ("project_ids",
                               VArr (if String.eqb (selectedProject props) EmptyString
                                     then []
                                     else [VStr (selectedProject props)]));
                             ("selected_project", VStr (selectedProject props)) ]);
                    ("type", VStr "chat") ]).
Proof.
  split; [reflexivity|]. split; [|split; [reflexivity|]].
  - exact (proj1 (every_frame_is_a_chat_message (host := demo_host))
             props6 clock0 typed
             (socket0, chat_frame (host := demo_host)
                         "What is the efficiency KPI?" "demo" "6")
             (or_introl eq_refl)).
  - exact (proj2 (every_frame_is_a_chat_message (host := demo_host))
             initial send_answer_send
             (socket0, chat_frame (host := demo_host) "b" "demo" "6")
             (or_intror (or_introl eq_refl))).
Defined.

Lemma loading_flag_serialises_sends_witness :
  isLoading waiting = true
  /\ sendMessage (host := demo_host) props6 clock0 waiting = (inr tt, waiting, [])
  /\ (peak true 0 (snd (run (host := demo_host) initial send_error_send)) <= 1)%nat
  /\ ~ List.In Errored send_answer_send
  /\ (peak false 0 (snd (run (host := demo_host) initial send_answer_send)) <= 1)%nat
  /\ JSON_parse (Host := demo_host) response_text = Some response_envelope
  /\ frames_of (sendMessage (host := demo_host) props6 clock0
                  (state_of (onmessage (host := demo_host) response_text clock0 waiting)))
     = [(socket0, JSON_stringify (Host := demo_host)
                    (chat_payload (inputMessage waiting) props6))].
Proof.
  assert (N : ~ List.In Errored send_answer_send).
  { cbn. intuition discriminate. }
  split; [reflexivity|].
  split; [|split; [|split; [exact N|split; [|split; [reflexivity|]]]]].
  - exact (proj1 (loading_flag_serialises_sends (host := demo_host))
             props6 clock0 waiting eq_refl).
  - exact (proj1 (proj2 (proj2 (loading_flag_serialises_sends (host := demo_host))))
             initial send_error_send).
  - exact (proj1 (proj2 (proj2 (proj2
                    (loading_flag_serialises_sends (host := demo_host)))))
             initial send_answer_send N).
  - exact (proj2 (proj2 (proj2 (proj2 (proj2
                    (loading_flag_serialises_sends (host := demo_host))))))
             response_text response_envelope clock0 waiting props6 clock0 socket0
             eq_refl eq_refl eq_refl eq_refl).
Defined.

(** C4 as stated fails: no envelope arrives in this run, yet the second
    [sendMessage] is carried out, and two chat frames are unanswered. *)
Lemma second_send_while_first_unanswered :
  sent (snd (run (host := demo_host) initial send_error_send))
  = [ (socket0, chat_frame (host := demo_host) "a" "demo" "6");
      (socket0, chat_frame (host := demo_host) "b" "demo" "6") ]
  /\ peak false 0 (snd (run (host := demo_host) initial send_error_send)) = 2%nat
  /\ ~ (peak false 0 (snd (run (host := demo_host) initial send_error_send)) <= 1)%nat.
Proof.
  split; [reflexivity|]. split; [reflexivity|].
  vm_compute. intros H. inversion H as [|n H1]. inversion H1.
Qed.

Lemma sessionId_follows_the_clock_witness :
  NoDup [1700000000000; 1700000000001]
  /\ NoDup (sessionIds [1700000000000; 1700000000001])
  /\ sessionIds [1700000000000; 1700000000001]
     = ["session_1700000000000"; "session_1700000000001"].
Proof.
  assert (N : NoDup [1700000000000; 1700000000001]).
  { constructor; [|constructor; [|constructor]]; cbn; intuition discriminate. }
  split; [exact N|]. split; [|reflexivity].
  exact (proj2 (proj2 (proj2 sessionId_follows_the_clock)
                  [1700000000000; 1700000000001]) N).
Defined.

(** C7 as stated fails: two connections opened at the same clock reading
    carry the same session identifier. *)
Lemma same_millisecond_same_session :
  sessionIds [1700000000000; 1700000000000]
  = ["session_1700000000000"; "session_1700000000000"]
  /\ url (connect None 1700000000000) = "ws://localhost:8000/ws/session_1700000000000"
  /\ ~ NoDup (sessionIds [1700000000000; 1700000000000]).
Proof.
  split; [reflexivity|]. split; [reflexivity|].
  intros H. inversion H as [|x l Hx _]. apply Hx. left. reflexivity.
Qed.


Lemma dashboard_replaced_iff_decoded_param_parses_witness :
  DemoMore.dashboard_text <> EmptyString
  /\ decodeURIComponent (Host := DemoMore.dashboard_host) DemoMore.dashboard_text
     = Some DemoMore.dashboard_text
  /\ JSON_parse (Host := DemoMore.dashboard_host) DemoMore.dashboard_text
     = Some DemoMore.dashboard_value
  /\ (exists st',
        Microsite.useEffect (host := DemoMore.dashboard_host)
          (Some DemoMore.dashboard_text) Microsite.initial = inr st'
        /\ Microsite.dashboardData st' = Microsite.Parsed DemoMore.dashboard_value
        /\ Microsite.isLoading st' = Microsite.isLoading Microsite.initial)
  /\ Microsite.useEffect (host := DemoMore.dashboard_host) (Some "{oops")
       Microsite.initial = inr Microsite.initial.
Proof.
  assert (N : DemoMore.dashboard_text <> EmptyString) by discriminate.
  split; [exact N|]. split; [reflexivity|]. split; [reflexivity|]. split.
  - exact (proj1 (proj2 (dashboard_replaced_iff_decoded_param_parses
                           (host := DemoMore.dashboard_host)
                           (Some DemoMore.dashboard_text) Microsite.initial))
             DemoMore.dashboard_text DemoMore.dashboard_text
             DemoMore.dashboard_value eq_refl N eq_refl eq_refl).
  - apply (proj2 (proj2 (dashboard_replaced_iff_decoded_param_parses
                           (host := DemoMore.dashboard_host)
                           (Some "{oops") Microsite.initial))).
    intros p text v [= <-] _ D J. vm_compute in D. injection D as <-.
    vm_compute in J. discriminate.
Defined.

(** C10 as stated fails: this parameter is JSON as it stands, yet it has
    no percent-decoding, so the state is left as it was. *)
Lemma json_parameter_with_percent_is_dropped :
  JSON_parse (Host := DemoMore.percent_host) DemoMore.percent_text
  = Some (VStr "100%")
  /\ decodeURIComponent (Host := DemoMore.percent_host) DemoMore.percent_text = None
  /\ Microsite.useEffect (host := DemoMore.percent_host)
       (Some DemoMore.percent_text) Microsite.initial = inr Microsite.initial
  /\ Microsite.dashboardData Microsite.initial
     <> Microsite.Parsed (VStr "100%").
Proof. repeat split. discriminate. Qed.

End Examples.

(* ================================================================== *)
(** * Further properties of the chat client                            *)
(* ================================================================== *)

Section ChatRuns.
Import JS Builtins ChatInterface Session ChatView.
Context {host : Host}.

(** What one handler call does to the message list, the socket cell and
    the wire. *)
Lemma handle_step (ev : Event) (st : State) :
  exists new,
    messages (state_of (handle ev st)) = (messages st ++ new)%list
    /\ (List.length new <= 1)%nat
    /\ Forall (fun m => type m <> T_error) new
    /\ List.length (filter is_user new) = List.length (frames_of (handle ev st))
    /\ Forall (fun m => exists k now,
                   id m = message_id k now /\ List.In now (readings [ev])) new
    /\ Forall (fun f => List.In (fst f) (held st)) (frames_of (handle ev st))
    /\ held (state_of (handle ev st)) =
       match ev with
       | Opened ws _ _ => [ws]
       | _ => held st
       end.
Proof.
  assert (Nil : forall st' fr,
             messages st' = messages st -> held st' = held st -> fr = [] ->
             exists new : list Message,
               messages st' = (messages st ++ new)%list
               /\ (List.length new <= 1)%nat
               /\ Forall (fun m => type m <> T_error) new
               /\ List.length (filter is_user new) = List.length (A := Frame) fr
               /\ Forall (fun m => exists k now,
                              id m = message_id k now
                              /\ List.In now (readings [ev])) new
               /\ Forall (fun f => List.In (fst f) (held st)) fr
               /\ held st' = held st).
  { intros st' fr Hm Hh ->. exists []. rewrite app_nil_r. cbn. auto 10. }
  destruct ev; cbn [handle].
  - (* onopen *)
    eexists [_]. cbn. split; [reflexivity|]. split; [lia|].
    split; [repeat constructor; discriminate|]. split; [reflexivity|].
    split; [|split; [constructor|reflexivity]].
    repeat constructor. exists K_sys, (Date_now clock). cbn. auto.
  - (* onChange *)
    apply Nil; reflexivity.
  - (* sendMessage *)
    destruct (negb (String_truthy (trim (inputMessage st)))
              || negb (connected (websocket st)) || isLoading st) eqn:G.
    + rewrite (sendMessage_blocked props clock st G). apply Nil; reflexivity.
    + apply orb_false_elim in G. destruct G as [G Hl].
      apply orb_false_elim in G. destruct G as [Hin Hw].
      apply negb_false_iff in Hin. apply negb_false_iff in Hw.
      destruct (websocket st) as [ws|] eqn:Ew; [|discriminate].
      rewrite (sendMessage_sends props clock st ws Ew Hin Hl).
      eexists [_]. unfold held. rewrite Ew. cbn.
      split; [reflexivity|]. split; [lia|].
      split; [repeat constructor; discriminate|]. split; [reflexivity|].
      split; [|split; [repeat constructor; auto|reflexivity]].
      repeat constructor. exists K_user, (Date_now clock). cbn. auto.
  - (* onmessage *)
    unfold onmessage. destruct (JSON_parse event_data) as [data|];
      [|apply Nil; reflexivity].
    destruct (has_type data "response") eqn:H1.
    { apply has_type_true in H1. rewrite (dispatch_response _ _ _ H1).
      eexists [_]. cbn. split; [reflexivity|]. split; [lia|].
      split; [repeat constructor; discriminate|]. split; [reflexivity|].
      split; [|split; [constructor|reflexivity]].
      repeat constructor. exists K_resp, (Date_now clock). cbn. auto. }
    destruct (has_type data "artifact_generated") eqn:H2.
    { apply has_type_true in H2. rewrite (dispatch_artifact _ _ _ H2).
      destruct (get (field data "artifact") "filename") as [e|filename];
        [apply Nil; reflexivity|].
      destruct (ToString filename) as [shown|]; [|apply Nil; reflexivity].
      eexists [_]. cbn. split; [reflexivity|]. split; [lia|].
      split; [repeat constructor; discriminate|]. split; [reflexivity|].
      split; [|split; [constructor|reflexivity]].
      repeat constructor. exists K_art, (Date_now clock). cbn. auto. }
    destruct (has_type data "error") eqn:H3.
    { apply has_type_true in H3. rewrite (dispatch_error _ _ _ H3).
      eexists [_]. cbn. split; [reflexivity|]. split; [lia|].
      split; [repeat constructor; discriminate|]. split; [reflexivity|].
      split; [|split; [constructor|reflexivity]].
      repeat constructor. exists K_err, (Date_now clock). cbn. auto. }
    destruct (dispatch_other data clock st H1 H2 H3) as [Hs Hf].
    rewrite Hs. apply Nil; [reflexivity|reflexivity|exact Hf].
  - (* onerror *)
    apply Nil; reflexivity.
  - (* onclose *)
    apply Nil; reflexivity.
Qed.

(** X1.  Along any run the message list only grows: the final list is the
    initial one followed by new messages, at most one per event, none of
    them of type [error]. *)
Theorem messages_only_grow (st : State) (evs : list Event) :
  exists new,
    messages (fst (run st evs)) = (messages st ++ new)%list
    /\ (List.length new <= List.length evs)%nat
    /\ Forall (fun m => type m <> T_error) new.
Proof.
  revert st. induction evs as [|ev rest IH]; intros st.
  - exists []. cbn. rewrite app_nil_r. auto.
  - rewrite run_cons. cbn [fst].
    destruct (handle_step ev st) as (n1 & E1 & L1 & T1 & _).
    destruct (IH (state_of (handle ev st))) as (n2 & E2 & L2 & T2).
    exists (n1 ++ n2)%list. rewrite E2, E1, app_assoc.
    split; [reflexivity|]. split.
    + rewrite length_app. cbn. lia.
    + apply Forall_app. auto.
Qed.

(** X2.  Along any run, as many user messages are appended as frames are
    handed to the socket. *)
Theorem one_user_message_per_frame (st : State) (evs : list Event) :
  List.length (filter is_user (messages (fst (run st evs)))) =
  (List.length (filter is_user (messages st))
   + List.length (sent (snd (run st evs))))%nat.
Proof.
  revert st. induction evs as [|ev rest IH]; intros st; [cbn; lia|].
  rewrite run_cons. cbn [fst snd].
  rewrite !sent_app, sent_observe, sent_outbound, app_nil_l, length_app.
  destruct (handle_step ev st) as (n1 & E1 & _ & _ & C1 & _).
  rewrite IH, E1, filter_app, length_app, C1. lia.
Qed.

(** X3.  A second [sendMessage] right after a first one does nothing,
    whatever the props and the clock: two clicks send at most one
    frame. *)
Theorem second_click_does_nothing
    (props props' : Props) (clock clock' : Clock) (st : State) :
  sendMessage props' clock' (state_of (sendMessage props clock st)) =
    (inr tt, state_of (sendMessage props clock st), []).
Proof.
  destruct (negb (String_truthy (trim (inputMessage st)))
            || negb (connected (websocket st)) || isLoading st) eqn:G.
  - rewrite (sendMessage_blocked props clock st G). cbn.
    apply sendMessage_blocked, G.
  - apply orb_false_elim in G. destruct G as [G Hl].
    apply orb_false_elim in G. destruct G as [Hin Hw].
    apply negb_false_iff in Hin. apply negb_false_iff in Hw.
    destruct (websocket st) as [ws|] eqn:Ew; [|discriminate].
    rewrite (sendMessage_sends props clock st ws Ew Hin Hl).
    apply sendMessage_blocked. reflexivity.
Qed.

Lemma trimStart_spaces (s : string) :
  all_chars is_space1 s = true -> trimStart s = EmptyString.
Proof.
  induction s as [|c s IH]; cbn; [reflexivity|].
  intros H. apply andb_true_iff in H. destruct H as [Hc Hs].
  rewrite Hc. auto.
Qed.

(** X4.  An input made only of spaces, tabs and line breaks is never
    sent: [sendMessage] leaves the state as it is. *)
Theorem blank_input_is_not_sent (props : Props) (clock : Clock) (st : State) :
  all_chars is_space1 (inputMessage st) = true ->
  sendMessage props clock st = (inr tt, st, []).
Proof.
  intros H. apply sendMessage_blocked.
  unfold trim. rewrite (trimStart_spaces _ H). reflexivity.
Qed.

(** X5.  The send button and the handler agree, up to the socket: when
    the button is disabled [sendMessage] does nothing; when it is enabled
    and a socket is held, exactly one frame goes to that socket, carrying
    the input as typed; when it is enabled but no socket is held yet, the
    click does nothing. *)
Theorem send_button_agrees_with_handler (props : Props) (clock : Clock) (st : State) :
  (send_disabled st = true -> sendMessage props clock st = (inr tt, st, []))
  /\ (send_disabled st = false ->
      forall ws, websocket st = Some ws ->
                 frames_of (sendMessage props clock st) =
                   [(ws, chat_frame (inputMessage st) (tenant (user props))
                                    (selectedProject props))])
  /\ (send_disabled st = false -> websocket st = None ->
      sendMessage props clock st = (inr tt, st, [])).
Proof.
  unfold send_disabled. split; [|split].
  - intros H. apply sendMessage_blocked.
    apply orb_true_iff in H. destruct H as [H|H]; rewrite H; cbn;
      [reflexivity|apply orb_true_r].
  - intros H ws Hw. apply orb_false_elim in H. destruct H as [Hin Hl].
    apply negb_false_iff in Hin.
    rewrite (sendMessage_sends props clock st ws Hw Hin Hl). cbn.
    unfold chat_frame, chat_payload, projectIds.
    destruct (selectedProject props); reflexivity.
  - intros _ Hw. apply sendMessage_blocked. rewrite Hw. cbn.
    rewrite orb_true_r. reflexivity.
Qed.

Lemma opened_cons (ev : Event) (rest : list Event) :
  opened (ev :: rest) = (opened [ev] ++ opened rest)%list.
Proof. unfold opened. cbn. now rewrite app_nil_r. Qed.

(** X6.  Along any run, every frame goes to a socket the component was
    given: the one held at the start or one passed to [onopen].  In
    particular nothing is sent before a socket has opened. *)
Theorem frames_go_to_known_sockets (st : State) (evs : list Event) :
  (forall f, List.In f (sent (snd (run st evs))) ->
             List.In (fst f) (held st ++ opened evs))
  /\ (websocket st = None -> opened evs = [] -> sent (snd (run st evs)) = []).
Proof.
  assert (Main : forall evs st f,
             List.In f (sent (snd (run st evs))) ->
             List.In (fst f) (held st ++ opened evs)).
  { clear st evs. induction evs as [|ev rest IH]; intros st f; [cbn; tauto|].
    rewrite run_cons. cbn [snd].
    rewrite !sent_app, sent_observe, sent_outbound, app_nil_l.
    destruct (handle_step ev st) as (_ & _ & _ & _ & _ & _ & F & Hh).
    intros H. apply in_app_or in H. destruct H as [H|H].
    - rewrite Forall_forall in F. apply in_or_app. left. apply F, H.
    - apply IH in H. rewrite Hh in H. rewrite opened_cons.
      apply in_app_or in H. apply in_or_app. destruct H as [H|H].
      + destruct ev; try (left; exact H).
        right. apply in_or_app. left. exact H.
      + right. apply in_or_app. right. exact H. }
  split; [apply Main|].
  intros Hw Ho. destruct (sent (snd (run st evs))) as [|f l] eqn:E; [reflexivity|].
  exfalso. specialize (Main evs st f). rewrite E in Main.
  specialize (Main (or_introl eq_refl)).
  unfold held in Main. rewrite Hw, Ho in Main. exact Main.
Qed.

(** X7.  No handler ever empties the socket cell: once a socket is held,
    one is held after any run, socket errors and closes included. *)
Theorem socket_cell_is_never_cleared (st : State) (evs : list Event) :
  connected (websocket st) = true ->
  connected (websocket (fst (run st evs))) = true.
Proof.
  revert st. induction evs as [|ev rest IH]; intros st H; [exact H|].
  rewrite run_cons. cbn [fst]. apply IH.
  destruct (handle_step ev st) as (_ & _ & _ & _ & _ & _ & _ & Hh).
  unfold held in Hh.
  destruct (websocket (state_of (handle ev st))); [reflexivity|].
  destruct ev; destruct (websocket st); discriminate.
Qed.

(** X8.  Whatever arrives, [onmessage] sends nothing and leaves the
    input box and the socket cell as they are. *)
Theorem onmessage_keeps_input_and_socket
    (event_data : string) (clock : Clock) (st : State) :
  frames_of (onmessage event_data clock st) = []
  /\ inputMessage (state_of (onmessage event_data clock st)) = inputMessage st
  /\ websocket (state_of (onmessage event_data clock st)) = websocket st.
Proof.
  unfold onmessage. destruct (JSON_parse event_data) as [data|];
    [|repeat split].
  destruct (has_type data "response") eqn:H1.
  { apply has_type_true in H1. rewrite (dispatch_response _ _ _ H1). repeat split. }
  destruct (has_type data "artifact_generated") eqn:H2.
  { apply has_type_true in H2. rewrite (dispatch_artifact _ _ _ H2).
    destruct (get (field data "artifact") "filename") as [e|filename];
      [repeat split|].
    destruct (ToString filename); repeat split. }
  destruct (has_type data "error") eqn:H3.
  { apply has_type_true in H3. rewrite (dispatch_error _ _ _ H3). repeat split. }
  destruct (dispatch_other data clock st H1 H2 H3) as [Hs Hf].
  rewrite Hs, Hf. repeat split.
Qed.

(** ** Message identifiers *)

Lemma string_of_uint_decimal (d : Decimal.uint) :
  all_chars is_decimal_char (NilEmpty.string_of_uint d) = true.
Proof. induction d; cbn; auto. Qed.

Lemma string_of_Z_decimal (z : Z) : all_chars is_decimal_char (string_of_Z z) = true.
Proof.
  unfold string_of_Z, NilZero.string_of_int, NilZero.string_of_uint.
  destruct (Z.to_int z) as [d|d]; destruct d; cbn;
    try reflexivity; apply string_of_uint_decimal.
Qed.

(** Two decimal renderings followed by an underscore are equal only if
    the renderings are. *)
Lemma decimal_then_underscore (d1 d2 r1 r2 : string) :
  all_chars is_decimal_char d1 = true ->
  all_chars is_decimal_char d2 = true ->
  (d1 ++ String "_" r1 = d2 ++ String "_" r2)%string ->
  d1 = d2 /\ r1 = r2.
Proof.
  revert d2. induction d1 as [|c d1 IH]; intros [|c2 d2] H1 H2 E; cbn in *.
  - injection E as E. auto.
  - injection E as Ec E. subst c2. discriminate.
  - injection E as Ec E. subst c. discriminate.
  - injection E as Ec E. subst c2.
    apply andb_true_iff in H1. apply andb_true_iff in H2.
    destruct (IH d2 (proj2 H1) (proj2 H2) E) as [-> ->]. auto.
Qed.

Lemma message_id_inj (k k' : IdKind) (a b : Z) :
  message_id k a = message_id k' b -> k = k' /\ a = b.
Proof.
  destruct k, k'; cbn; intros E; try discriminate;
    try (injection E as E; apply string_of_Z_inj in E; auto; fail);
    injection E as E;
    destruct (decimal_then_underscore _ _ _ _
                (string_of_Z_decimal a) (string_of_Z_decimal b) E) as [Ed Er];
    try discriminate; apply string_of_Z_inj in Ed; auto.
Qed.

Lemma readings_cons (ev : Event) (rest : list Event) :
  readings (ev :: rest) = (readings [ev] ++ readings rest)%list.
Proof. unfold readings. cbn. now rewrite app_nil_r. Qed.

Lemma run_ids (evs : list Event) (st : State) :
  exists new,
    messages (fst (run st evs)) = (messages st ++ new)%list
    /\ Forall (fun m => exists k now,
                   id m = message_id k now /\ List.In now (readings evs)) new
    /\ (NoDup (readings evs) -> NoDup (map id new)).
Proof.
  revert st. induction evs as [|ev rest IH]; intros st.
  - exists []. cbn. rewrite app_nil_r. repeat split; constructor.
  - rewrite run_cons. cbn [fst].
    destruct (handle_step ev st) as (n1 & E1 & L1 & _ & _ & I1 & _).
    destruct (IH (state_of (handle ev st))) as (n2 & E2 & I2 & N2).
    exists (n1 ++ n2)%list. rewrite E2, E1, app_assoc, readings_cons.
    split; [reflexivity|]. split.
    + apply Forall_app. split.
      * eapply Forall_impl; [|exact I1]. cbn beta.
        intros m (k & now & Ei & Hn). exists k, now. split; [exact Ei|].
        apply in_or_app. left. exact Hn.
      * eapply Forall_impl; [|exact I2]. cbn beta.
        intros m (k & now & Ei & Hn). exists k, now. split; [exact Ei|].
        apply in_or_app. right. exact Hn.
    + intros ND.
      assert (ND2 : NoDup (readings rest)) by (eapply NoDup_app_remove_l; exact ND).
      specialize (N2 ND2).
      destruct n1 as [|m [|m' n1]]; cbn in L1; try lia; [exact N2|].
      cbn. constructor; [|exact N2].
      rewrite in_map_iff. intros (m2 & Eid & Hm2).
      rewrite Forall_forall in I1, I2.
      destruct (I1 m (or_introl eq_refl)) as (k & now & Em & Hnow).
      destruct (I2 m2 Hm2) as (k2 & now2 & Em2 & Hnow2).
      rewrite Em, Em2 in Eid. apply message_id_inj in Eid. destruct Eid as [_ <-].
      clear - ND Hnow Hnow2.
      induction (readings [ev]) as [|x l IHl]; [contradiction|].
      cbn in ND. inversion ND as [|? ? Hx Hl]. subst.
      destruct Hnow as [->|Hnow].
      * apply Hx. apply in_or_app. right. exact Hnow2.
      * apply IHl; assumption.
Qed.

(** X9.  Message identifiers follow the clock: when the handlers of a run
    read pairwise distinct [Date.now()] values, the messages they append
    have pairwise distinct identifiers (the keys of the rendered list). *)
Theorem message_ids_are_distinct (st : State) (evs : list Event) :
  NoDup (readings evs) ->
  exists new,
    messages (fst (run st evs)) = (messages st ++ new)%list
    /\ NoDup (map id new).
Proof.
  intros ND. destruct (run_ids evs st) as (new & E & _ & N).
  exists new. auto.
Qed.

End ChatRuns.

(* ================================================================== *)
(** * Properties of the project selector                               *)
(* ================================================================== *)

Section SelectorProperties.
Import JS ProjectSelector.

Lemma find_same_id (p : Project) (ps : list Project) :
  List.In p ps ->
  exists q, find (fun x => String.eqb (id x) (id p)) ps = Some q
            /\ List.In q ps /\ id q = id p.
Proof.
  induction ps as [|x ps IH]; [contradiction|].
  intros H. cbn. destruct (String.eqb (id x) (id p)) eqn:E.
  - exists x. apply String.eqb_eq in E. auto.
  - destruct H as [->|H]; [rewrite String.eqb_refl in E; discriminate|].
    destruct (IH H) as (q & F & I & Q). exists q. auto.
Qed.

Lemma same_id_same_project (p q : Project) (ps : list Project) :
  NoDup (map id ps) -> List.In p ps -> List.In q ps -> id q = id p -> q = p.
Proof.
  induction ps as [|x ps IH]; [contradiction|].
  cbn. intros ND Hp Hq E. inversion ND as [|? ? Hx Hps]. subst.
  destruct Hp as [->|Hp], Hq as [->|Hq]; auto.
  - exfalso. apply Hx. rewrite <- E. apply in_map, Hq.
  - exfalso. apply Hx. rewrite E. apply in_map, Hp.
Qed.

Lemma no_entry_highlighted (k : string) (ps : list Project) :
  ~ List.In k (map id ps) ->
  filter (fun x => String.eqb k (id x)) ps = [].
Proof.
  induction ps as [|y ps IH]; [reflexivity|]. cbn. intros H.
  destruct (String.eqb_spec k (id y)) as [E|_].
  - exfalso. apply H. left. symmetry. exact E.
  - apply IH. intros I. apply H. right. exact I.
Qed.

(** X10.  With nothing selected, a load that returns at least one project
    selects the first one: [onProjectChange] is called once, with its
    identifier; once the owner has applied the call the button shows the
    name of that project, and the spinner is gone. *)
Theorem default_selection_shows_first_project
    (first : Project) (others : list Project) (st : State) :
  let r := loadProjects EmptyString (Some (first :: others)) st in
  snd r = [id first]
  /\ label (apply_calls EmptyString (snd r)) (fst r) = name first
  /\ isLoading (fst r) = false.
Proof.
  cbn. unfold label, selectedProjectData. cbn.
  rewrite String.eqb_refl. auto.
Qed.

(** X11.  A selection that is already made is never replaced by the
    load, even when no loaded project has that identifier: no call is
    made, the button then reads [Select Project] and no entry of the menu
    is highlighted. *)
Theorem stale_selection_is_kept
    (selected : string) (ps : list Project) (st : State) :
  selected <> EmptyString ->
  (forall p, List.In p ps -> id p <> selected) ->
  let r := loadProjects selected (Some ps) st in
  snd r = []
  /\ label (apply_calls selected (snd r)) (fst r) = "Select Project"
  /\ highlighted (apply_calls selected (snd r)) (fst r) = [].
Proof.
  intros Hs Hn. cbn.
  assert (C : match ps with
              | [] => []
              | first :: _ =>
                  if String.eqb selected EmptyString then [id first] else []
              end = []).
  { destruct ps; [reflexivity|].
    destruct (String.eqb_spec selected EmptyString); [contradiction|reflexivity]. }
  rewrite C. cbn. split; [reflexivity|].
  unfold label, selectedProjectData, highlighted. cbn.
  clear C. induction ps as [|x ps IH]; [auto|]. cbn.
  assert (Hx : id x <> selected) by (apply Hn; left; reflexivity).
  destruct (String.eqb_spec (id x) selected); [contradiction|].
  destruct (String.eqb_spec selected (id x)); [congruence|].
  apply IH. intros p Hp. apply Hn. right. exact Hp.
Qed.

(** X12.  Choosing an entry of the menu closes the menu and, once the
    owner has applied the call, the button shows the name of the first
    project that carries the chosen identifier; when identifiers are not
    repeated that is the chosen project, and it is the only highlighted
    entry. *)
Theorem chosen_project_is_shown
    (selected : string) (p : Project) (st : State) :
  List.In p (projects st) ->
  let r := choose p st in
  isOpen (fst r) = false
  /\ (exists q, List.In q (projects st) /\ id q = id p
                /\ label (apply_calls selected (snd r)) (fst r) = name q)
  /\ (NoDup (map id (projects st)) ->
      label (apply_calls selected (snd r)) (fst r) = name p
      /\ highlighted (apply_calls selected (snd r)) (fst r) = [p]).
Proof.
  intros Hp. cbn. split; [reflexivity|].
  unfold label, selectedProjectData, highlighted. cbn.
  destruct (find_same_id p (projects st) Hp) as (q & F & I & Q).
  rewrite F. split; [exists q; auto|].
  intros ND. rewrite (same_id_same_project p q _ ND Hp I Q).
  split; [reflexivity|].
  clear F I Q q. induction (projects st) as [|x ps IH]; [contradiction|].
  cbn in ND. inversion ND as [|? ? Hx Hps]. subst. cbn.
  destruct Hp as [->|Hp].
  - rewrite String.eqb_refl. f_equal. apply no_entry_highlighted, Hx.
  - destruct (String.eqb_spec (id p) (id x)) as [E|_].
    + exfalso. apply Hx. rewrite <- E. apply in_map, Hp.
    + apply IH; assumption.
Qed.

End SelectorProperties.

(* ================================================================== *)
(** * Properties of the file icon and of small scores                  *)
(* ================================================================== *)

Section IconProperties.
Import JS Builtins MessageBubble FileIcon.
Context {host : Host}.

Lemma starts_with_app (k b : string) : starts_with k (k ++ b) = true.
Proof.
  induction k as [|c k IH]; cbn; [reflexivity|].
  rewrite Ascii.eqb_refl. exact IH.
Qed.

Lemma includes_app (a k b : string) : includes (a ++ k ++ b) k = true.
Proof.
  induction a as [|c a IH]; cbn.
  - destruct (k ++ b)%string eqn:E; cbn; rewrite <- ?E, starts_with_app; reflexivity.
  - rewrite IH. apply orb_true_r.
Qed.

(** X13.  The icon of an artifact is decided by the words its MIME type
    contains, anywhere in it, the first test that succeeds deciding:
    [spreadsheet] gives the spread sheet icon whatever else is there,
    [wordprocessing] the text icon unless [spreadsheet] is there too, and
    a type without any of the three words gets the download icon. *)
Theorem file_icon_follows_keywords (a b : string) :
  getFileIcon (a ++ "spreadsheet" ++ b) = Icon "FileSpreadsheet" "h-4 w-4 text-green-600"
  /\ (includes (a ++ "wordprocessing" ++ b) "spreadsheet" = false ->
      getFileIcon (a ++ "wordprocessing" ++ b) = Icon "FileText" "h-4 w-4 text-blue-600")
  /\ (forall mimeType,
        getFileIcon mimeType = Icon "Download" "h-4 w-4" <->
        includes mimeType "spreadsheet" = false
        /\ includes mimeType "wordprocessing" = false
        /\ includes mimeType "presentation" = false).
Proof.
  split; [|split].
  - unfold getFileIcon. rewrite includes_app. reflexivity.
  - intros H. unfold getFileIcon. rewrite H, includes_app. reflexivity.
  - intros mimeType. unfold getFileIcon.
    destruct (includes mimeType "spreadsheet"),
             (includes mimeType "wordprocessing"),
             (includes mimeType "presentation");
      split; try discriminate; try tauto; intros (A & B & C); discriminate.
Qed.

(** X14.  A score that is not zero but whose hundredfold is below one half
    is shown as [Score: 0%] ([-0%] when negative): the zero percentage
    does appear, for small scores. *)
Theorem small_score_shows_zero_percent
    (source : Source) (x : number) (s : bool) (m : positive) (e : Z) :
  score source = Some x ->
  Number_truthy x = true ->
  Number_mul x hundred = S754_finite s m e ->
  e < 0 ->
  2 * Zpos m < 2 ^ (- e) ->
  score_children (score source) =
    [ bullet;
      Element "span" EmptyString
        [ Text "Score: "; Text (if s then "-0" else "0"); Text "%" ] ].
Proof.
  intros Hs Ht Hm He Hsmall. rewrite Hs. unfold score_children. rewrite Ht, Hm.
  assert (Hp : 0 < 2 ^ (- e)) by (apply Z.pow_pos_nonneg; lia).
  assert (Hk : 2 ^ (- e) = 2 * 2 ^ (- e - 1)).
  { replace (- e) with (Z.succ (- e - 1)) at 1 by lia.
    apply Z.pow_succ_r. lia. }
  assert (G : ge_1e21 m e = false).
  { unfold ge_1e21. destruct (Z.leb_spec 0 e); [lia|].
    apply Z.leb_gt. nia. }
  assert (N : nearest_integer m e = 0).
  { unfold nearest_integer. destruct (Z.leb_spec 0 e); [lia|].
    apply Z.div_small. lia. }
  unfold toFixed0. rewrite G, N. destruct s; reflexivity.
Qed.

End IconProperties.

(* ================================================================== *)
(** * Properties of the API service and of the application shell       *)
(* ================================================================== *)

Section ServiceProperties.
Import JS Builtins ApiService.
Context {host : Host}.
Variable fetch : FetchCall -> option Response.

Lemma header_assign (k k' v : string) (obj : Headers) :
  header k (assign obj k' v) = if String.eqb k k' then Some v else header k obj.
Proof.
  induction obj as [|[k0 v0] obj IH]; cbn.
  - reflexivity.
  - destruct (String.eqb_spec k' k0) as [->|N]; cbn.
    + destruct (String.eqb k k0); reflexivity.
    + rewrite IH. destruct (String.eqb_spec k k0) as [->|N'].
      * destruct (String.eqb_spec k0 k'); [congruence|reflexivity].
      * reflexivity.
Qed.

Lemma header_spread (k : string) (src obj : Headers) :
  NoDup (map fst src) ->
  header k (spread obj src) =
    match header k src with
    | Some v => Some v
    | None => header k obj
    end.
Proof.
  unfold spread. revert obj. induction src as [|[k0 v0] src IH]; intros obj ND.
  - reflexivity.
  - cbn in *. inversion ND as [|? ? Hk Hsrc]. subst.
    rewrite (IH _ Hsrc), header_assign.
    destruct (String.eqb_spec k k0) as [->|N].
    + assert (E : header k0 src = None).
      { clear - Hk. induction src as [|[k1 v1] src IH]; [reflexivity|]. cbn in *.
        destruct (String.eqb_spec k0 k1) as [->|_]; [tauto|]. apply IH. tauto. }
      rewrite E. reflexivity.
    + reflexivity.
Qed.

(** X15.  The headers of a request: a header given by the caller wins over
    the defaults; otherwise [Content-Type] is [application/json], and
    [Authorization] is [Bearer] and the token exactly when the token is
    truthy; no other header is sent. *)
Theorem caller_headers_override_defaults
    (svc : Service) (options : RequestInit) (hs : Headers) (k : string) :
  let h := match headers options with
           | Some given => given
           | None => []
           end in
  NoDup (map fst h) ->
  request_headers svc options = inr hs ->
  header k hs =
    match header k h with
    | Some v => Some v
    | None =>
        if String.eqb k "Content-Type" then Some "application/json"
        else if String.eqb k "Authorization" then
          (if ToBoolean (token svc)
           then option_map (fun t => "Bearer " ++ t) (ToString (token svc))
           else None)
        else None
    end.
Proof.
  intros h ND. unfold request_headers. fold h.
  destruct (ToBoolean (token svc)).
  - destruct (ToString (token svc)) as [t|]; [|discriminate].
    intros [= <-]. rewrite (header_spread k h _ ND).
    destruct (header k h); [reflexivity|]. cbn.
    destruct (String.eqb k "Content-Type") eqn:E1.
    + apply String.eqb_eq in E1. subst k. reflexivity.
    + destruct (String.eqb k "Authorization") eqn:E2.
      * apply String.eqb_eq in E2. subst k. reflexivity.
      * apply String.eqb_neq in E1. apply String.eqb_neq in E2.
        destruct (String.eqb_spec "Authorization" "Content-Type"); [discriminate|].
        cbn. destruct (String.eqb_spec k "Content-Type"); [contradiction|].
        destruct (String.eqb_spec k "Authorization"); [contradiction|reflexivity].
  - intros [= <-]. rewrite (header_spread k h _ ND).
    destruct (header k h); [reflexivity|]. cbn.
    destruct (String.eqb k "Content-Type"); [reflexivity|].
    destruct (String.eqb k "Authorization"); reflexivity.
Qed.

(** X16.  What [request] resolves to is always the JSON body of a response
    with a status from 200 to 299, received for the base URL followed by
    the end point: no other status ever yields data. *)
Theorem request_resolves_only_on_success
    (svc : Service) (endpoint : string) (options : RequestInit) (v : value) :
  request fetch svc endpoint options = inr v ->
  exists call response,
    call_of svc endpoint options = Some call
    /\ fetch_url call = baseUrl svc ++ endpoint
    /\ fetch call = Some response
    /\ 200 <= status response <= 299
    /\ json response = Some v.
Proof.
  unfold request, call_of.
  destruct (request_headers svc options) as [e|h]; [discriminate|].
  set (call := {| fetch_url := baseUrl svc ++ endpoint; fetch_init := _ |}).
  destruct (fetch call) as [response|] eqn:F; [|discriminate].
  destruct (ok response) eqn:O; cbn.
  - destruct (json response) as [v'|] eqn:J; [|discriminate].
    intros [= <-]. exists call, response.
    unfold ok in O. apply andb_true_iff in O. destruct O as [A B].
    apply Z.leb_le in A. apply Z.leb_le in B. auto 10.
  - destruct (get _ "detail") as [e|d]; [discriminate|].
    destruct (ToString d); discriminate.
Qed.

(** X17.  A response outside 200-299 makes [request] reject.  With a body
    that is not JSON the error message carries the status and the status
    text; with a JSON object body it carries the status and the text of
    the [detail] property; with the JSON body [null] the rejection is a
    [TypeError], not the HTTP error. *)
Theorem request_rejects_with_status
    (svc : Service) (endpoint : string) (options : RequestInit)
    (call : FetchCall) (response : Response) :
  call_of svc endpoint options = Some call ->
  fetch call = Some response ->
  ok response = false ->
  (json response = None ->
   request fetch svc endpoint options =
     inl (HttpError ("HTTP error! status: " ++ string_of_Z (status response) ++
                     ". Detail: " ++ statusText response)))
  /\ (forall fields shown,
        json response = Some (VObj fields) ->
        ToString (field (VObj fields) "detail") = Some shown ->
        request fetch svc endpoint options =
          inl (HttpError ("HTTP error! status: " ++ string_of_Z (status response) ++
                          ". Detail: " ++ shown)))
  /\ (json response = Some VNull ->
      request fetch svc endpoint options = inl (Thrown TypeError)).
Proof.
  unfold call_of, request.
  destruct (request_headers svc options) as [e|h]; [discriminate|].
  intros [= <-] F O. rewrite F, O. cbn.
  split; [|split].
  - intros ->. reflexivity.
  - intros fields shown -> Hs. unfold field in Hs. cbn in *.
    destruct (lookup "detail" fields); rewrite Hs; reflexivity.
  - intros ->. reflexivity.
Qed.

(** X18.  After a login that succeeds with a non-empty string as
    [access_token], the token is in storage and every later request
    carries it as [Authorization: Bearer <token>]. *)
Theorem login_authorizes_later_requests
    (username password t : string) (w w' : World) (response : value)
    (endpoint : string) :
  login fetch username password w = (inr response, w') ->
  get response "access_token" = inr (VStr t) ->
  String_truthy t = true ->
  stored_token w' = Some t
  /\ exists call,
       call_of (service w') endpoint no_options = Some call
       /\ fetch_url call = baseUrl (service w) ++ endpoint
       /\ option_map (header "Authorization") (headers (fetch_init call))
          = Some (Some ("Bearer " ++ t)).
Proof.
  unfold login. intros L G T.
  destruct (request fetch (service w) "/api/v1/auth/login" _) as [f|r];
    [discriminate|].
  destruct (get r "access_token") as [e|tok] eqn:Gr; [discriminate|].
  destruct (ToString tok) as [text|] eqn:Ts; [|discriminate].
  injection L as <- <-. rewrite Gr in G. injection G as ->.
  cbn in Ts. injection Ts as <-. cbn.
  split; [reflexivity|].
  unfold call_of, request_headers. cbn. rewrite T. cbn.
  eexists. split; [reflexivity|]. cbn. auto.
Qed.

(** X19.  A login whose response has no [access_token] still succeeds:
    the token becomes [undefined], the text [undefined] is put in
    storage, later requests carry no [Authorization]; at the next page
    load the shell takes the stored text for a token and shows the main
    screen, and the new service object sends [Bearer undefined]. *)
Theorem login_without_token_stores_undefined
    (username password : string) (w w' : World) (response : value)
    (st : AppShell.State) (v : option string) :
  login fetch username password w = (inr response, w') ->
  get response "access_token" = inr VUndefined ->
  stored_token w' = Some "undefined"
  /\ token (service w') = VUndefined
  /\ request_headers (service w') no_options
     = inr [("Content-Type", "application/json")]
  /\ AppShell.isAuthenticated (AppShell.check_token (stored_token w') st) = true
  /\ request_headers (constructor v (stored_token w')) no_options
     = inr [("Content-Type", "application/json");
            ("Authorization", "Bearer undefined")].
Proof.
  unfold login. intros L G.
  destruct (request fetch (service w) "/api/v1/auth/login" _) as [f|r];
    [discriminate|].
  destruct (get r "access_token") as [e|tok] eqn:Gr; [discriminate|].
  destruct (ToString tok) as [text|] eqn:Ts; [|discriminate].
  injection L as <- <-. rewrite Gr in G. injection G as ->.
  cbn in Ts. injection Ts as <-. cbn. repeat split.
Qed.

(** X20.  [logout] forgets the token only when its request resolves.  If
    the responses carry no JSON body (an empty 204, say), the request
    rejects whatever the status, and the token stays in the service and in
    storage. *)
Theorem logout_needs_a_json_answer (w : World) :
  (forall v,
      request fetch (service w) "/api/v1/auth/logout"
        {| method := Some "POST"; body := None; headers := None |} = inr v ->
      stored_token (snd (logout fetch w)) = None
      /\ token (service (snd (logout fetch w))) = VNull)
  /\ ((forall call response, fetch call = Some response -> json response = None) ->
      exists f, logout fetch w = (inl f, w)).
Proof.
  unfold logout. split.
  - intros v ->. cbn. auto.
  - intros NoJson. unfold request.
    destruct (request_headers (service w) _) as [e|h]; [eauto|].
    match goal with |- context [fetch ?c] => destruct (fetch c) as [r|] eqn:F end;
      [|eauto].
    rewrite (NoJson _ _ F). destruct (ok r); cbn; eauto.
Qed.

(** X21.  The shell's own log-out removes the stored token and shows the
    login screen, but does not reach the service object: a service that
    held a non-empty token keeps sending it. *)
Theorem shell_logout_keeps_service_token
    (w : World) (st : AppShell.State) (t endpoint : string) :
  token (service w) = VStr t ->
  String_truthy t = true ->
  let r := AppShell.logout w st in
  stored_token (fst r) = None
  /\ AppShell.render (snd r) = AppShell.AuthWrapper
  /\ exists call,
       call_of (service (fst r)) endpoint no_options = Some call
       /\ option_map (header "Authorization") (headers (fetch_init call))
          = Some (Some ("Bearer " ++ t)).
Proof.
  intros Ht Tt. cbn. split; [reflexivity|]. split; [reflexivity|].
  unfold call_of, request_headers. rewrite Ht. cbn. rewrite Tt. cbn.
  eexists. split; [reflexivity|]. reflexivity.
Qed.

End ServiceProperties.

Section ShellProperties.
Import JS Builtins.
Context {host : Host}.

(** X22.  Any non-empty stored token, whatever its text, opens the main
    screen as the demo user, and the chat frames built for that user
    carry the tenant [demo]. *)
Theorem stored_token_opens_demo_session
    (t message : string) (st : AppShell.State) :
  String_truthy t = true ->
  exists props,
    AppShell.render (AppShell.check_token (Some t) st) = AppShell.Main props
    /\ ChatInterface.user props = Some AppShell.demo_user
    /\ ChatInterface.selectedProject props = AppShell.selectedProject st
    /\ field (field (ChatInterface.chat_payload message props) "project_context")
             "tenant_id" = VStr "demo".
Proof.
  intros T. unfold AppShell.check_token. rewrite T. cbn.
  eexists. split; [reflexivity|]. cbn. auto.
Qed.

(** X23.  A project selected before a log-out is still selected after the
    next login: the project selector, loaded anew, makes no default
    selection, and the chat sends that project identifier. *)
Theorem selection_survives_logout
    (w : ApiService.World) (st : AppShell.State) (u : ChatInterface.User)
    (settled : option (list ProjectSelector.Project)) (message : string) :
  AppShell.selectedProject st <> EmptyString ->
  let st' := AppShell.onAuthSuccess u (snd (AppShell.logout w st)) in
  AppShell.selectedProject st' = AppShell.selectedProject st
  /\ snd (ProjectSelector.loadProjects (AppShell.selectedProject st') settled
            ProjectSelector.initial) = []
  /\ (forall props, AppShell.render st' = AppShell.Main props ->
        field (field (ChatInterface.chat_payload message props) "project_context")
              "project_ids" = VArr [VStr (AppShell.selectedProject st)]).
Proof.
  intros Hs. cbn. split; [reflexivity|]. split.
  - destruct settled as [[|first ps]|]; cbn; try reflexivity.
    destruct (String.eqb_spec (AppShell.selectedProject st) EmptyString);
      [contradiction|reflexivity].
  - intros props [= <-]. cbn. unfold ChatInterface.projectIds. cbn.
    destruct (AppShell.selectedProject st); [contradiction|reflexivity].
Qed.

End ShellProperties.

(* ================================================================== *)
(** * Properties of the microsite preview and of the project card      *)
(* ================================================================== *)

Section PreviewProperties.
Import JS Builtins ChatInterface MicrositePreview.
Context {host : Host}.

(** X24.  A [response] envelope mounts a preview exactly when its
    [microsite] is truthy.  When it is an object, the frame and the link
    of the preview point to its [url] if that is truthy, and to
    [http://localhost:5173] otherwise. *)
Theorem preview_points_to_url_or_default
    (event_data : string) (data : value) (clock : Clock) (st : State) :
  JSON_parse event_data = Some data ->
  get data "type" = inr (VStr "response") ->
  exists m,
    messages (state_of (onmessage event_data clock st)) = (messages st ++ [m])%list
    /\ shows_preview m = ApiService.ToBoolean (field data "microsite")
    /\ (forall fields,
          field data "microsite" = VObj fields ->
          shows_preview m = true
          /\ micrositeUrl (microsite m) =
             inr (if ApiService.ToBoolean (field (VObj fields) "url")
                  then field (VObj fields) "url"
                  else VStr "http://localhost:5173")).
Proof.
  intros Hp Ht. unfold onmessage. rewrite Hp, (dispatch_response _ _ _ Ht).
  eexists. cbn. split; [reflexivity|]. unfold shows_preview. cbn.
  split; [reflexivity|]. intros fields E. rewrite E. cbn.
  split; [reflexivity|]. unfold micrositeUrl, field. cbn.
  destruct (lookup "url" fields); reflexivity.
Qed.

End PreviewProperties.

Section CardProperties.
Import JS Builtins Microsite Dashboard.
Context {host : Host}.

Lemma append_assoc (a b c : string) : ((a ++ b) ++ c = a ++ b ++ c)%string.
Proof. induction a as [|x a IH]; cbn; [reflexivity|]. now rewrite IH. Qed.

Lemma append_empty_r (a : string) : (a ++ EmptyString = a)%string.
Proof. induction a as [|x a IH]; cbn; [reflexivity|]. now rewrite IH. Qed.

(** X25.  The card of a project whose completion is zero has no progress
    bar and ends with the bare text [0] (a NaN completion likewise ends
    with [NaN]); a project without completion has neither; any other
    completion gets [Progress], the number as [ToString] prints it and
    [%], and a bar whose width is that text and [%]. *)
Theorem zero_completion_shows_bare_zero (project : Project) :
  (forall sign, completion project = Some (S754_zero sign) ->
   progress_children (completion project) = [Text "0"]
   /\ textContent (render_project project) =
      project_title project ++ project_description project ++
      "Status: " ++ status project ++ "0")
  /\ (completion project = Some S754_nan ->
      progress_children (completion project) = [Text "NaN"]
      /\ textContent (render_project project) =
         project_title project ++ project_description project ++
         "Status: " ++ status project ++ "NaN")
  /\ (completion project = None ->
      textContent (render_project project) =
      project_title project ++ project_description project ++
      "Status: " ++ status project)
  /\ (forall x, completion project = Some x -> Number_truthy x = true ->
      progress_children (completion project) =
        [ Element "div" "mt-3" None
            [ Element "div" "flex justify-between text-sm text-gray-600 mb-1" None
                [ Element "span" EmptyString None [Text "Progress"];
                  Element "span" EmptyString None
                    [Text (Number_toString x); Text "%"] ];
              Element "div" "w-full bg-gray-200 rounded-full h-2" None
                [ Element "div" "bg-blue-600 h-2 rounded-full"
                    (Some ("width", Number_toString x ++ "%")) [] ] ] ]
      /\ textContent (render_project project) =
         project_title project ++ project_description project ++
         "Status: " ++ status project ++ "Progress" ++ Number_toString x ++ "%").
Proof.
  assert (T : forall extra,
             textContent
               (Element "div" "border border-gray-200 rounded-lg p-4" None
                  ([ Element "div" "flex items-start justify-between" None
                       [ Element "div" "flex-1" None
                           [ Element "h3" "font-medium text-gray-900" None
                               [Text (project_title project)];
                             Element "p" "text-sm text-gray-600 mt-1" None
                               [Text (project_description project)];
                             Element "div" "flex items-center mt-2" None
                               [ Icon "CheckCircle" "h-4 w-4 text-green-500 mr-2";
                                 Element "span" "text-sm text-gray-700" None
                                   [Text "Status: "; Text (status project)] ] ] ] ]
                   ++ extra)%list) =
             project_title project ++ project_description project ++
             "Status: " ++ status project ++
             fold_right (fun c acc => textContent c ++ acc) EmptyString extra).
  { intros extra. cbn.
    repeat (rewrite append_empty_r || rewrite append_assoc). cbn.
    repeat (rewrite append_empty_r || rewrite append_assoc). reflexivity. }
  unfold render_project. split; [|split; [|split]].
  - intros sign ->. split; [reflexivity|]. rewrite T. reflexivity.
  - intros ->. split; [reflexivity|]. rewrite T. reflexivity.
  - intros ->. rewrite T. cbn. now rewrite append_empty_r.
  - intros x -> Hx. unfold progress_children. rewrite Hx.
    split; [reflexivity|]. rewrite T. cbn.
    repeat (rewrite append_empty_r || rewrite append_assoc). reflexivity.
Qed.

End CardProperties.

(* ================================================================== *)
(** * What a frame never carries                                        *)
(* ================================================================== *)

Section FrameContents.
Import JS Builtins ChatInterface Session.
Context {host : Host}.

Lemma tenant_nonempty (u : option User) : String_truthy (tenant u) = true.
Proof.
  unfold tenant, String_or. destruct u as [u'|]; [|reflexivity].
  destruct (tenant_id u') as [t|]; [|reflexivity].
  destruct (String_truthy t) eqn:E; [exact E|reflexivity].
Qed.

(** X26.  Along any run, no frame carries a blank message or an empty
    tenant.  Each frame comes from a call of [sendMessage]; its message is
    the input held at that call, as typed (not trimmed), and that input
    has a character that is not white space; its tenant is the
    [tenant_id] of the user of that call when the user has a non-empty
    one, and [demo] otherwise. *)
Theorem frames_are_never_blank (st : State) (evs : list Event) (f : Frame) :
  List.In f (sent (snd (run st evs))) ->
  exists pre post props clock tid,
    evs = (pre ++ Submitted props clock :: post)%list
    /\ tid = match user props with
             | Some u =>
                 match tenant_id u with
                 | Some t => if String_truthy t then t else "demo"
                 | None => "demo"
                 end
             | None => "demo"
             end
    /\ snd f = chat_frame (inputMessage (fst (run st pre))) tid
                          (selectedProject props)
    /\ String_truthy (trim (inputMessage (fst (run st pre)))) = true
    /\ String_truthy tid = true.
Proof.
  intros H.
  destruct (frame_origin evs st f H)
    as (pre & post & props & clock & ws & E & _ & T & _ & ->).
  exists pre, post, props, clock, (tenant (user props)). cbn [snd].
  split; [exact E|]. split; [reflexivity|]. split; [|split; [exact T|]].
  - unfold chat_frame, chat_payload, projectIds.
    destruct (selectedProject props); reflexivity.
  - apply tenant_nonempty.
Qed.

End FrameContents.


(* ================================================================== *)
(** * The further properties on concrete runs                          *)
(* ================================================================== *)

Section MoreExamples.
Import JS Builtins ChatInterface Session ChatView Demo DemoMore.

Lemma blank_input_is_not_sent_witness :
  sendMessage (host := demo_host) props6 clock0
    {| messages := []; inputMessage := "   "; isLoading := false;
       websocket := Some socket0 |}
  = (inr tt,
     {| messages := []; inputMessage := "   "; isLoading := false;
        websocket := Some socket0 |}, []).
Proof.
  exact (blank_input_is_not_sent (host := demo_host) props6 clock0
           {| messages := []; inputMessage := "   "; isLoading := false;
              websocket := Some socket0 |} eq_refl).
Defined.

Lemma send_button_agrees_with_handler_witness :
  send_disabled waiting = true
  /\ sendMessage (host := demo_host) props6 clock0 waiting = (inr tt, waiting, [])
  /\ send_disabled typed = false
  /\ frames_of (sendMessage (host := demo_host) props6 clock0 typed)
     = [(socket0, chat_frame (host := demo_host) "What is the efficiency KPI?" "demo" "6")]
  /\ sendMessage (host := demo_host) props6 clock0
       {| messages := []; inputMessage := "hello"; isLoading := false;
          websocket := None |}
     = (inr tt,
        {| messages := []; inputMessage := "hello"; isLoading := false;
           websocket := None |}, []).
Proof.
  split; [reflexivity|]. split; [|split; [reflexivity|split]].
  - exact (proj1 (send_button_agrees_with_handler (host := demo_host)
                    props6 clock0 waiting) eq_refl).
  - exact (proj1 (proj2 (send_button_agrees_with_handler (host := demo_host)
                           props6 clock0 typed)) eq_refl socket0 eq_refl).
  - exact (proj2 (proj2 (send_button_agrees_with_handler (host := demo_host)
                           props6 clock0
                           {| messages := []; inputMessage := "hello";
                              isLoading := false; websocket := None |}))
             eq_refl eq_refl).
Defined.

Lemma frames_go_to_known_sockets_witness :
  List.In (socket0, chat_frame (host := demo_host) "a" "demo" "6")
          (sent (snd (run (host := demo_host) initial send_error_send)))
  /\ List.In socket0 (held initial ++ opened send_error_send)
  /\ sent (snd (run (host := demo_host) initial
                  [Changed "a"; Submitted props6 clock0])) = [].
Proof.
  assert (I : List.In (socket0, chat_frame (host := demo_host) "a" "demo" "6")
                (sent (snd (run (host := demo_host) initial send_error_send)))).
  { left. reflexivity. }
  split; [exact I|]. split.
  - exact (proj1 (frames_go_to_known_sockets (host := demo_host)
                    initial send_error_send) _ I).
  - exact (proj2 (frames_go_to_known_sockets (host := demo_host)
                    initial [Changed "a"; Submitted props6 clock0])
             eq_refl eq_refl).
Defined.

Lemma socket_cell_is_never_cleared_witness :
  connected (websocket typed) = true
  /\ connected (websocket (fst (run (host := demo_host) typed [Errored; Closed]))) = true.
Proof.
  split; [reflexivity|].
  exact (socket_cell_is_never_cleared (host := demo_host) typed [Errored; Closed]
           eq_refl).
Defined.

Lemma message_ids_are_distinct_witness :
  NoDup (readings two_answers)
  /\ exists new,
       messages (fst (run (host := demo_host) initial two_answers))
       = (messages initial ++ new)%list
       /\ NoDup (map id new).
Proof.
  assert (N : NoDup (readings two_answers)).
  { cbn. constructor; [|constructor; [|constructor]]; cbn; intuition discriminate. }
  split; [exact N|].
  exact (message_ids_are_distinct (host := demo_host) initial two_answers N).
Defined.

Lemma stale_selection_is_kept_witness :
  "9" <> EmptyString
  /\ snd (ProjectSelector.loadProjects "9" (Some [p_mars; p_shell])
            ProjectSelector.initial) = []
  /\ ProjectSelector.label "9"
       (fst (ProjectSelector.loadProjects "9" (Some [p_mars; p_shell])
               ProjectSelector.initial)) = "Select Project".
Proof.
  assert (A : "9" <> EmptyString) by discriminate.
  assert (B : forall p, List.In p [p_mars; p_shell] -> ProjectSelector.id p <> "9").
  { intros p [<-|[<-|[]]]; discriminate. }
  destruct (stale_selection_is_kept "9" [p_mars; p_shell]
              ProjectSelector.initial A B) as (C & L & _).
  split; [exact A|]. split; [exact C|]. rewrite C in L. exact L.
Defined.

Lemma chosen_project_is_shown_witness :
  List.In p_shell (ProjectSelector.projects loaded)
  /\ NoDup (map ProjectSelector.id (ProjectSelector.projects loaded))
  /\ ProjectSelector.label "2" (fst (ProjectSelector.choose p_shell loaded))
     = "Shell Production Optimization"
  /\ ProjectSelector.highlighted "2" (fst (ProjectSelector.choose p_shell loaded))
     = [p_shell].
Proof.
  assert (I : List.In p_shell (ProjectSelector.projects loaded)).
  { right. left. reflexivity. }
  assert (N : NoDup (map ProjectSelector.id (ProjectSelector.projects loaded))).
  { cbn. constructor; [|constructor; [|constructor]]; cbn; intuition discriminate. }
  split; [exact I|]. split; [exact N|].
  exact (proj2 (proj2 (chosen_project_is_shown "1" p_shell loaded I)) N).
Defined.

Lemma file_icon_follows_keywords_witness :
  FileIcon.includes
    ("application/vnd.openxmlformats-officedocument." ++ "wordprocessing" ++ "ml.document")
    "spreadsheet" = false
  /\ FileIcon.getFileIcon
       "application/vnd.openxmlformats-officedocument.wordprocessingml.document"
     = MessageBubble.Icon "FileText" "h-4 w-4 text-blue-600".
Proof.
  split; [reflexivity|].
  exact (proj1 (proj2 (file_icon_follows_keywords
                         "application/vnd.openxmlformats-officedocument."
                         "ml.document")) eq_refl).
Defined.

Lemma small_score_shows_zero_percent_witness :
  Number_mul score_0004 MessageBubble.hundred
  = S754_finite false 7205759403792794 (-54)
  /\ MessageBubble.score_children (host := demo_host) (Some score_0004) =
       [ MessageBubble.bullet;
         MessageBubble.Element "span" EmptyString
           [ MessageBubble.Text "Score: "; MessageBubble.Text "0";
             MessageBubble.Text "%" ] ].
Proof.
  split; [reflexivity|].
  exact (small_score_shows_zero_percent (host := demo_host)
           {| MessageBubble.file := "notes.txt"; MessageBubble.project := "6";
              MessageBubble.type := "txt"; MessageBubble.score := Some score_0004 |}
           score_0004 false 7205759403792794%positive (-54)
           eq_refl eq_refl eq_refl eq_refl eq_refl).
Defined.

Lemma caller_headers_override_defaults_witness :
  ApiService.request_headers (host := demo_host) (ApiService.service signed_in)
    {| ApiService.method := None; ApiService.body := None;
       ApiService.headers := Some [("Content-Type", "text/plain")] |}
  = inr [("Content-Type", "text/plain"); ("Authorization", "Bearer tok123")]
  /\ ApiService.header "Content-Type"
       [("Content-Type", "text/plain"); ("Authorization", "Bearer tok123")]
     = Some "text/plain".
Proof.
  split; [reflexivity|].
  assert (N : NoDup (map fst [("Content-Type", "text/plain")])).
  { cbn. constructor; [tauto|constructor]. }
  exact (caller_headers_override_defaults (host := demo_host)
           (ApiService.service signed_in)
           {| ApiService.method := None; ApiService.body := None;
              ApiService.headers := Some [("Content-Type", "text/plain")] |}
           _ "Content-Type" N eq_refl).
Defined.

Lemma request_resolves_only_on_success_witness :
  ApiService.request (host := demo_host) network (ApiService.service fresh)
    "/api/v1/auth/login" ApiService.no_options = inr token_response
  /\ exists call response,
       ApiService.call_of (host := demo_host) (ApiService.service fresh)
         "/api/v1/auth/login" ApiService.no_options = Some call
       /\ ApiService.fetch_url call
          = ApiService.baseUrl (ApiService.service fresh) ++ "/api/v1/auth/login"
       /\ network call = Some response
       /\ 200 <= ApiService.status response <= 299
       /\ ApiService.json response = Some token_response.
Proof.
  split; [reflexivity|].
  exact (request_resolves_only_on_success (host := demo_host) network
           (ApiService.service fresh) "/api/v1/auth/login" ApiService.no_options
           token_response eq_refl).
Defined.

Lemma request_rejects_with_status_witness :
  ApiService.request (host := demo_host) network (ApiService.service signed_in)
    "/api/v1/projects/" ApiService.no_options
  = inl (ApiService.HttpError "HTTP error! status: 401. Detail: Not authenticated").
Proof.
  exact (proj1 (proj2 (request_rejects_with_status (host := demo_host) network
                         (ApiService.service signed_in) "/api/v1/projects/"
                         ApiService.no_options _ _ eq_refl eq_refl eq_refl))
           [("detail", VStr "Not authenticated")] "Not authenticated"
           eq_refl eq_refl).
Defined.

Lemma login_authorizes_later_requests_witness :
  ApiService.login (host := demo_host) network "demo" "demo" fresh
  = (inr token_response,
     {| ApiService.stored_token := Some "tok123";
        ApiService.service :=
          {| ApiService.baseUrl := "http://localhost:8000";
             ApiService.token := VStr "tok123" |} |})
  /\ exists call,
       ApiService.call_of (host := demo_host)
         {| ApiService.baseUrl := "http://localhost:8000";
            ApiService.token := VStr "tok123" |}
         "/api/v1/projects/" ApiService.no_options = Some call
       /\ ApiService.fetch_url call = "http://localhost:8000/api/v1/projects/"
       /\ option_map (ApiService.header "Authorization")
            (ApiService.headers (ApiService.fetch_init call))
          = Some (Some "Bearer tok123").
Proof.
  split; [reflexivity|].
  exact (proj2 (login_authorizes_later_requests (host := demo_host) network
                  "demo" "demo" "tok123" fresh _ token_response
                  "/api/v1/projects/" eq_refl eq_refl eq_refl)).
Defined.

Lemma login_without_token_stores_undefined_witness :
  ApiService.stored_token
    (snd (ApiService.login (host := demo_host) network_without_token
            "demo" "demo" fresh)) = Some "undefined"
  /\ AppShell.isAuthenticated
       (AppShell.check_token (Some "undefined") AppShell.initial) = true.
Proof.
  destruct (login_without_token_stores_undefined (host := demo_host)
              network_without_token "demo" "demo" fresh _ plain_response
              AppShell.initial None eq_refl eq_refl)
    as (S & _ & _ & A & _).
  cbn [snd]. split; [exact S|]. exact A.
Defined.

Lemma logout_needs_a_json_answer_witness :
  exists f,
    ApiService.logout (host := demo_host) network_without_body signed_in
    = (inl f, signed_in).
Proof.
  apply (proj2 (logout_needs_a_json_answer (host := demo_host)
                  network_without_body signed_in)).
  intros call response [= <-]. reflexivity.
Defined.

Lemma shell_logout_keeps_service_token_witness :
  ApiService.token (ApiService.service signed_in) = VStr "tok123"
  /\ ApiService.stored_token (fst (AppShell.logout signed_in shell_state)) = None
  /\ exists call,
       ApiService.call_of (host := demo_host)
         (ApiService.service (fst (AppShell.logout signed_in shell_state)))
         "/api/v1/projects/" ApiService.no_options = Some call
       /\ option_map (ApiService.header "Authorization")
            (ApiService.headers (ApiService.fetch_init call))
          = Some (Some "Bearer tok123").
Proof.
  split; [reflexivity|].
  destruct (shell_logout_keeps_service_token (host := demo_host)
              signed_in shell_state "tok123" "/api/v1/projects/"
              eq_refl eq_refl) as (S & _ & C).
  split; [exact S|exact C].
Defined.

Lemma stored_token_opens_demo_session_witness :
  exists props,
    AppShell.render (AppShell.check_token (Some "expired-or-forged") AppShell.initial)
    = AppShell.Main props
    /\ ChatInterface.user props = Some AppShell.demo_user
    /\ ChatInterface.selectedProject props = EmptyString
    /\ field (field (chat_payload "hi" props) "project_context") "tenant_id"
       = VStr "demo".
Proof.
  exact (stored_token_opens_demo_session "expired-or-forged" "hi"
           AppShell.initial eq_refl).
Defined.

Lemma selection_survives_logout_witness :
  AppShell.selectedProject shell_state <> EmptyString
  /\ AppShell.selectedProject
       (AppShell.onAuthSuccess analyst (snd (AppShell.logout signed_in shell_state)))
     = "6"
  /\ snd (ProjectSelector.loadProjects "6" (Some [p_mars; p_shell])
            ProjectSelector.initial) = [].
Proof.
  assert (A : AppShell.selectedProject shell_state <> EmptyString) by discriminate.
  destruct (selection_survives_logout signed_in shell_state analyst
              (Some [p_mars; p_shell]) "hi" A) as (S & L & _).
  split; [exact A|]. split; [exact S|exact L].
Defined.

Lemma preview_points_to_url_or_default_witness :
  JSON_parse (Host := demo_host_more) microsite_text = Some microsite_envelope
  /\ exists m,
       messages (state_of (onmessage (host := demo_host_more) microsite_text clock0 typed))
       = (messages typed ++ [m])%list
       /\ MicrositePreview.shows_preview m = true
       /\ MicrositePreview.micrositeUrl (microsite m)
          = inr (VStr "http://localhost:5173/?data=%7B%7D").
Proof.
  split; [reflexivity|].
  destruct (preview_points_to_url_or_default (host := demo_host_more)
              microsite_text microsite_envelope clock0 typed eq_refl eq_refl)
    as (m & E & _ & P).
  exists m. split; [exact E|]. exact (P microsite_fields eq_refl).
Defined.

Lemma zero_completion_shows_bare_zero_witness :
  Microsite.completion unstarted = Some (S754_zero false)
  /\ Dashboard.textContent (Dashboard.render_project (host := demo_host) unstarted)
     = "PilotNot started yetStatus: Planned0".
Proof.
  split; [reflexivity|].
  exact (proj2 (proj1 (zero_completion_shows_bare_zero (host := demo_host) unstarted)
                  false eq_refl)).
Defined.

Lemma frames_are_never_blank_witness :
  List.In (socket0, chat_frame (host := demo_host) "  hi " "acme" "7")
          (sent (snd (run (host := demo_host) initial
                        [ Opened socket0 (Some analyst) clock0;
                          Changed "  hi "; Submitted props_analyst clock0 ])))
  /\ exists pre post props clock tid,
       [ Opened socket0 (Some analyst) clock0;
         Changed "  hi "; Submitted props_analyst clock0 ]
       = (pre ++ Submitted props clock :: post)%list
       /\ tid = match user props with
                | Some u =>
                    match tenant_id u with
                    | Some t => if String_truthy t then t else "demo"
                    | None => "demo"
                    end
                | None => "demo"
                end
       /\ chat_frame (host := demo_host) "  hi " "acme" "7"
          = chat_frame (host := demo_host)
              (inputMessage (fst (run (host := demo_host) initial pre))) tid
              (selectedProject props)
       /\ String_truthy
            (trim (inputMessage (fst (run (host := demo_host) initial pre)))) = true
       /\ String_truthy tid = true.
Proof.
  assert (I : List.In (socket0, chat_frame (host := demo_host) "  hi " "acme" "7")
                (sent (snd (run (host := demo_host) initial
                              [ Opened socket0 (Some analyst) clock0;
                                Changed "  hi "; Submitted props_analyst clock0 ])))).
  { left. reflexivity. }
  split; [exact I|].
  exact (frames_are_never_blank (host := demo_host) initial _ _ I).
Defined.

End MoreExamples.
